(** * zero-spaces: custodial key vault, session tokens and signing flow

    A shallow embedding of the edge functions of the repository: register
    and login as the handlers they serve, upload-video-metadata as what its
    module is to the runtime (it has an early error and is not served) and as
    the expressions of its text that are well-formed on their own; of the
    database schema they run against; and of the part of the browser client
    that calls register and login (api.ts, the AuthProvider and the rules of
    the forms), followed by the properties checked on them.

    Conventions of the embedding.
    - A JavaScript string is a [string]: a sequence of code units in
      U+0000..U+00FF.  Strings with code units above U+00FF are outside the
      embedding; where a platform function may produce one, its model returns
      [None] and the caller's behaviour on such a value is spelled out.
    - A [Uint8Array] is a [list byte].
    - A time value (milliseconds since the epoch) is a [Z].
    - The platform and the third-party libraries the handlers call
      (WebCrypto, bcrypt, djwt, ethers) are not code of the repository: they
      are the fields of a [Platform] record, and their contracts are stated
      where a property needs them.
    - Every awaited or ambient operation of a handler is an [Event]; a handler
      is a finite tree of events ([Prog]), run against a [World].  The one
      exception is the import of raw key material, which reads and writes
      nothing: it is part of [DeriveKey] in register, and the function
      [importKey_HMAC] in login.
    - An environment variable that is not set reads as the empty text: the
      one variable the embedding reads is JWT_SECRET, which login passes to
      the TextEncoder, and the TextEncoder encodes [undefined] as it does the
      empty text.
    - A module serves its handler only if it loads: the import, const and let
      declarations of each statement list are recorded with their lines, and
      a list that declares a name twice is the early error that keeps the
      module from being evaluated.
    - Left out: the CORS headers of the responses, [console.error], and the
      set-up of the supabase client from SUPABASE_URL and the service key. *)

From Stdlib Require Import Strings.String Strings.Ascii Strings.Byte List ZArith NArith Bool Lia.
Import ListNotations.
Local Open Scope string_scope.
Local Open Scope Z_scope.

(** ** JavaScript built-ins used inline by the handlers *)

Module JS.

(** [!s] for a string: only the empty string is falsy. *)
Definition falsy (s : string) : bool :=
  match s with EmptyString => true | _ => false end.

(** [s.startsWith(p)] *)
Fixpoint startsWith (p s : string) : bool :=
  match p, s with
  | EmptyString, _ => true
  | String _ _, EmptyString => false
  | String a p', String b s' => Ascii.eqb a b && startsWith p' s'
  end.

(** [s.substring(n)] for [n] within the string or past its end. *)
Fixpoint substring_from (n : nat) (s : string) : string :=
  match n, s with
  | O, _ => s
  | S _, EmptyString => EmptyString
  | S n', String _ r => substring_from n' r
  end.

Definition byte_of_N (n : N) : byte :=
  match Byte.of_N n with Some b => b | None => x00 end.

(** Digit of [Number.prototype.toString(16)]: lower case. *)
Definition hexDigit (n : N) : ascii :=
  if (n <? 10)%N then ascii_of_N (48 + n) else ascii_of_N (87 + n).

(** [b.toString(16)] for an element of a [Uint8Array]. *)
Definition toString16 (b : byte) : string :=
  let n := Byte.to_N b in
  if (n <? 16)%N then String (hexDigit n) EmptyString
  else String (hexDigit (n / 16)) (String (hexDigit (n mod 16)) EmptyString).

(** [s.padStart(2, '0')] *)
Definition padStart2 (s : string) : string :=
  match String.length s with
  | O => "00"
  | S O => String "0" s
  | _ => s
  end.

(** [Array.from(bytes).map(b => b.toString(16).padStart(2, '0')).join('')] *)
Definition toHex (bytes : list byte) : string :=
  String.concat "" (map (fun b => padStart2 (toString16 b)) bytes).

(** Line terminators, which [.] does not match (those below U+0100). *)
Definition isLineTerminator (c : ascii) : bool :=
  let n := N_of_ascii c in ((n =? 10) || (n =? 13))%N.

(** All matches of [/.{1,2}/g], left to right, greedy. *)
Fixpoint match_dot12 (s : string) : list string :=
  match s with
  | EmptyString => []
  | String c rest =>
      if isLineTerminator c then match_dot12 rest
      else match rest with
           | EmptyString => [String c EmptyString]
           | String d rest' =>
               if isLineTerminator d
               then String c EmptyString :: match_dot12 rest'
               else String c (String d EmptyString) :: match_dot12 rest'
           end
  end.

(** [s.match(/.{1,2}/g)]: [null] when nothing matches. *)
Definition String_match (s : string) : option (list string) :=
  match match_dot12 s with
  | [] => None
  | l => Some l
  end.

(** White space skipped by [parseInt] (those below U+0100). *)
Definition isWhiteSpace (c : ascii) : bool :=
  let n := N_of_ascii c in
  ((n =? 9) || (n =? 10) || (n =? 11) || (n =? 12) || (n =? 13)
   || (n =? 32) || (n =? 160))%N.

Fixpoint trimStart (s : string) : string :=
  match s with
  | String c r => if isWhiteSpace c then trimStart r else s
  | EmptyString => EmptyString
  end.

Definition hexVal (c : ascii) : option Z :=
  let n := Z.of_N (N_of_ascii c) in
  if (48 <=? n) && (n <=? 57) then Some (n - 48)
  else if (97 <=? n) && (n <=? 102) then Some (n - 87)
  else if (65 <=? n) && (n <=? 70) then Some (n - 55)
  else None.

(** Value of the longest prefix of hexadecimal digits; [None] when empty. *)
Fixpoint hexPrefix (s : string) (acc : option Z) : option Z :=
  match s with
  | EmptyString => acc
  | String c r =>
      match hexVal c with
      | Some d =>
          hexPrefix r (Some (16 * (match acc with Some a => a | None => 0 end) + d))
      | None => acc
      end
  end.

Definition strip0x (s : string) : string :=
  match s with
  | String "0" (String "x" r) => r
  | String "0" (String "X" r) => r
  | _ => s
  end.

(** [parseInt(s, 16)]; [None] is [NaN]. *)
Definition parseInt16 (s : string) : option Z :=
  match trimStart s with
  | String "-" r => option_map Z.opp (hexPrefix (strip0x r) None)
  | String "+" r => hexPrefix (strip0x r) None
  | r => hexPrefix (strip0x r) None
  end.

(** Conversion of an array element when a [Uint8Array] is built. *)
Definition ToUint8 (x : option Z) : byte :=
  match x with
  | None => x00
  | Some z => byte_of_N (Z.to_N (z mod 256))
  end.

(** [new Uint8Array(s.match(/.{1,2}/g)!.map(byte => parseInt(byte, 16)))];
    [None] is the [TypeError] of calling [map] on [null]. *)
Definition fromHex (s : string) : option (list byte) :=
  option_map (map (fun chunk => ToUint8 (parseInt16 chunk))) (String_match s).

(** [new TextEncoder().encode(s)]: UTF-8. *)
Definition utf8_of_code_unit (c : ascii) : list byte :=
  let n := N_of_ascii c in
  if (n <? 128)%N then [byte_of_N n]
  else [byte_of_N (192 + n / 64); byte_of_N (128 + n mod 64)].

Definition TextEncoder_encode (s : string) : list byte :=
  flat_map utf8_of_code_unit (list_ascii_of_string s).

(** UTF-8 decoding onto U+0000..U+00FF; [None] when the decoded text has a
    code point outside that range, U+FFFD for a malformed sequence included. *)
Fixpoint utf8_decode (bs : list byte) : option string :=
  match bs with
  | [] => Some EmptyString
  | b :: rest =>
      let n := Byte.to_N b in
      if (n <? 128)%N then option_map (String (ascii_of_N n)) (utf8_decode rest)
      else if ((n =? 194) || (n =? 195))%N then
        match rest with
        | c :: rest' =>
            let m := Byte.to_N c in
            if ((128 <=? m) && (m <? 192))%N
            then option_map (String (ascii_of_N ((n - 192) * 64 + (m - 128))))
                            (utf8_decode rest')
            else None
        | [] => None
        end
      else None
  end.

(** A leading byte order mark is dropped by the decoder. *)
Definition stripBOM (bs : list byte) : list byte :=
  match bs with
  | xef :: xbb :: xbf :: rest => rest
  | _ => bs
  end.

(** [new TextDecoder().decode(buffer)] *)
Definition TextDecoder_decode (bs : list byte) : option string :=
  utf8_decode (stripBOM bs).

(** Decimal digits: the [n] low digits of [z], most significant first. *)
Fixpoint digits (n : nat) (z : Z) : string :=
  match n with
  | O => EmptyString
  | S n' => digits n' (z / 10) ++ String (ascii_of_N (48 + Z.to_N (z mod 10))) EmptyString
  end.

(** Year, month and day of a day number counted from 1970-01-01. *)
Definition civil_from_days (day : Z) : Z * Z * Z :=
  let z := day + 719468 in
  let era := z / 146097 in
  let doe := z - era * 146097 in
  let yoe := (doe - doe / 1460 + doe / 36524 - doe / 146096) / 365 in
  let doy := doe - (365 * yoe + yoe / 4 - yoe / 100) in
  let mp := (5 * doy + 2) / 153 in
  let d := doy - (153 * mp + 2) / 5 + 1 in
  let m := if mp <? 10 then mp + 3 else mp - 9 in
  let y := yoe + era * 400 in
  (if m <=? 2 then y + 1 else y, m, d).

(** [new Date(t).toISOString()] for a valid time value [t]. *)
Definition toISOString (t : Z) : string :=
  let '(y, m, d) := civil_from_days (t / 86400000) in
  let ms := t mod 86400000 in
  let year :=
    if (0 <=? y) && (y <=? 9999) then digits 4 y
    else (if y <? 0 then "-" else "+") ++ digits 6 (Z.abs y) in
  year ++ "-" ++ digits 2 m ++ "-" ++ digits 2 d ++ "T"
       ++ digits 2 (ms / 3600000) ++ ":" ++ digits 2 (ms / 60000 mod 60) ++ ":"
       ++ digits 2 (ms / 1000 mod 60) ++ "." ++ digits 3 (ms mod 1000) ++ "Z".

(** [Math.round(x / 1000)] for an integer [x]: halves round up. *)
Definition round_div_1000 (x : Z) : Z := (x + 500) / 1000.

(** [/\s/] below U+0100. *)
Definition isRegexSpace (c : ascii) : bool := isWhiteSpace c.

(** A character of the class [[^\s@]]. *)
Definition isEmailChar (c : ascii) : bool :=
  negb (isRegexSpace c) && negb (Ascii.eqb c "@").

(** [/^[^\s@]+\.[^\s@]+$/] on the part after the [@]: every character in the
    class, and a dot that is neither first nor last. *)
Fixpoint hasInnerDot (s : string) : bool :=
  match s with
  | String _ ((String d (String _ _)) as r) =>
      Ascii.eqb d "." || hasInnerDot r
  | _ => false
  end.

Fixpoint allEmailChars (s : string) : bool :=
  match s with
  | EmptyString => true
  | String c r => isEmailChar c && allEmailChars r
  end.

(** Split at the first [@]: the part before it and the part after it. *)
Fixpoint splitAt (s : string) : option (string * string) :=
  match s with
  | EmptyString => None
  | String c r =>
      if Ascii.eqb c "@" then Some (EmptyString, r)
      else match splitAt r with
           | Some (a, b) => Some (String c a, b)
           | None => None
           end
  end.

(** [/^[^\s@]+@[^\s@]+\.[^\s@]+$/.test(s)] *)
Definition emailRegex_test (s : string) : bool :=
  match splitAt s with
  | Some (loc, dom) =>
      negb (falsy loc) && allEmailChars loc && allEmailChars dom && hasInnerDot dom
  | None => false
  end.

End JS.

(** ** Data model: the tables of schema.sql (src/unnamed/part_005, from line 186)
       and the shapes the handlers exchange *)

(** [uuid]: an opaque identifier. *)
Definition Uuid := N.

(** Table "User".  The timestamp columns hold the ISO rendering of an instant. *)
Module User.
Record t := mk {
  id : Uuid;
  email : string;
  username : string;
  passwordHash : string;
  walletAddress : string;
  encryptedPrivateKey : string;
  salt : string;
  iv : string;
  createdAt : string;
  updatedAt : string }.

(** The object given to [.from('User').insert(...)] by register. *)
Record insert := mkInsert {
  i_email : string;
  i_username : string;
  i_passwordHash : string;
  i_walletAddress : string;
  i_encryptedPrivateKey : string;
  i_salt : string;
  i_iv : string }.

(** The [user] object of the register and login responses. *)
Record public := mkPublic {
  p_id : Uuid;
  p_email : string;
  p_username : string;
  p_walletAddress : string;
  p_createdAt : string }.

Definition to_public (u : t) : public :=
  mkPublic (id u) (email u) (username u) (walletAddress u) (createdAt u).

Definition set_updatedAt (ts : string) (u : t) : t :=
  mk (id u) (email u) (username u) (passwordHash u) (walletAddress u)
     (encryptedPrivateKey u) (salt u) (iv u) (createdAt u) ts.
End User.

(** Table "Video". *)
Module Video.
Record t := mk {
  id : Uuid;
  title : string;
  videoUrl : string;
  ownerId : Uuid;
  signature : string;
  createdAt : string }.

(** The object given to [.from('Video').insert(...)] by upload-video-metadata. *)
Record insert := mkInsert {
  i_title : string;
  i_videoUrl : string;
  i_ownerId : Uuid;
  i_signature : string }.
End Video.

(** [interface JWTPayload], and the header given to djwt's [create]. *)
Module Jwt.
Record Payload := mkPayload {
  sub : Uuid;
  email : string;
  walletAddress : string;
  iat : Z;
  exp : Z }.

Record Header := mkHeader { alg : string; typ : string }.
End Jwt.

(** An [ethers.Wallet]. *)
Record Wallet := mkWallet { address : string; privateKey : string }.

(** The error half of a supabase-js [{ data, error }] result. *)
Inductive DbError :=
| UniqueViolation      (* 23505: a UNIQUE column already holds the value *)
| ForeignKeyViolation  (* 23503: REFERENCES "User"(id) *)
| NotSingleRow.        (* .single() on zero rows or on several rows *)

Inductive DbResult (A : Type) :=
| DbOk (data : A)
| DbErr (error : DbError).
Arguments DbOk {A} data.
Arguments DbErr {A} error.

(** ** The persistence collaborator: PostgreSQL under schema.sql *)

Module Db.

Record t := mk {
  users : list User.t;
  videos : list Video.t;
  next_uuid : Uuid;      (* what gen_random_uuid() yields next *)
  now : Z }.             (* the database server's clock, in milliseconds *)

(** [.eq(column, value).single()] *)
Definition single {A} (rows : list A) : DbResult A :=
  match rows with
  | [row] => DbOk row
  | _ => DbErr NotSingleRow
  end.

Definition selectUserByEmail (email : string) (d : t) : DbResult User.t :=
  single (filter (fun u => String.eqb (User.email u) email) (users d)).

Definition selectUserById (id : Uuid) (d : t) : DbResult User.t :=
  single (filter (fun u => N.eqb (User.id u) id) (users d)).

(** The three UNIQUE columns of "User" that an insert supplies. *)
Definition violatesUnique (i : User.insert) (d : t) : bool :=
  existsb (fun u =>
    String.eqb (User.email u) (User.i_email i)
    || String.eqb (User.username u) (User.i_username i)
    || String.eqb (User.walletAddress u) (User.i_walletAddress i)) (users d).

(** [.from('User').insert(i).select().single()]: id and both timestamps take
    their column defaults. *)
Definition insertUser (i : User.insert) (d : t) : DbResult User.t * t :=
  if violatesUnique i d then (DbErr UniqueViolation, d)
  else
    let ts := JS.toISOString (now d) in
    let row := User.mk (next_uuid d) (User.i_email i) (User.i_username i)
                 (User.i_passwordHash i) (User.i_walletAddress i)
                 (User.i_encryptedPrivateKey i) (User.i_salt i) (User.i_iv i) ts ts in
    (DbOk row, mk (users d ++ [row]) (videos d) (N.succ (next_uuid d)) (now d)).

(** [.from('Video').insert(i).select().single()]: id and createdAt take their
    column defaults. *)
Definition insertVideo (i : Video.insert) (d : t) : DbResult Video.t * t :=
  if negb (existsb (fun u => N.eqb (User.id u) (Video.i_ownerId i)) (users d))
  then (DbErr ForeignKeyViolation, d)
  else
    let row := Video.mk (next_uuid d) (Video.i_title i) (Video.i_videoUrl i)
                 (Video.i_ownerId i) (Video.i_signature i) (JS.toISOString (now d)) in
    (DbOk row, mk (users d) (videos d ++ [row]) (N.succ (next_uuid d)) (now d)).

(** [.from('User').update({ updatedAt }).eq('id', id)] *)
Definition updateUpdatedAt (id : Uuid) (ts : string) (d : t) : t :=
  mk (map (fun u => if N.eqb (User.id u) id then User.set_updatedAt ts u else u) (users d))
     (videos d) (next_uuid d) (now d).

End Db.

(** ** Platform and third-party libraries *)

Record Platform := mkPlatform {
  (* crypto.subtle.deriveKey, PBKDF2 with SHA-256 to a 256-bit AES-GCM key:
     password bytes, salt, iterations. *)
  PBKDF2_SHA256 : list byte -> list byte -> N -> list byte;
  (* crypto.subtle.encrypt / decrypt with AES-GCM: iv, key, data.
     [None] is the rejection of decrypt (OperationError). *)
  AES_GCM_encrypt : list byte -> list byte -> list byte -> list byte;
  AES_GCM_decrypt : list byte -> list byte -> list byte -> option (list byte);
  (* bcrypt: hash(password) with its random salt, verify(password, hash). *)
  bcrypt_hash : string -> list byte -> string;
  bcrypt_verify : string -> string -> bool;
  (* djwt: create(header, payload, key); verify(token, key) at a clock reading,
     [None] when it throws. *)
  djwt_create : Jwt.Header -> Jwt.Payload -> list byte -> string;
  djwt_verify : string -> list byte -> Z -> option Jwt.Payload;
  (* ethers: Wallet.createRandom() from its entropy; new Wallet(privateKey),
     [None] when the constructor throws; wallet.signMessage(message). *)
  Wallet_createRandom : list byte -> Wallet;
  Wallet_new : string -> option Wallet;
  Wallet_signMessage : Wallet -> string -> string }.

(** ** Handlers as trees of events *)

Inductive Event : Type -> Type :=
| DateNow : Event Z                                   (* new Date(), Date.now() *)
| GetRandomValues (n : nat) : Event (list byte)       (* crypto.getRandomValues *)
| EnvGet (name : string) : Event string               (* Deno.env.get(name)! *)
| DeriveKey (password salt : list byte) (iterations : N) : Event (list byte)
| Encrypt (iv key data : list byte) : Event (list byte)
| Decrypt (iv key data : list byte) : Event (option (list byte))
| BcryptHash (password : string) : Event string
| BcryptVerify (password hash : string) : Event bool
| JwtCreate (header : Jwt.Header) (payload : Jwt.Payload) (key : list byte) : Event string
| JwtVerify (token : string) (key : list byte) : Event (option Jwt.Payload)
| WalletCreateRandom : Event Wallet
| WalletNew (privateKey : string) : Event (option Wallet)
| SignMessage (signer : Wallet) (message : string) : Event string
| SelectUserByEmail (email : string) : Event (DbResult User.t)
| SelectUserById (id : Uuid) : Event (DbResult User.t)
| InsertUser (row : User.insert) : Event (DbResult User.t)
| InsertVideo (row : Video.insert) : Event (DbResult Video.t)
| UpdateUserUpdatedAt (id : Uuid) (updatedAt : string) : Event unit.

Inductive Prog (R : Type) : Type :=
| Ret (r : R)
| Throw
| Vis {X : Type} (e : Event X) (k : X -> Prog R).
Arguments Ret {R} r.
Arguments Throw {R}.
Arguments Vis {R X} e k.

Definition trigger {X} (e : Event X) : Prog X := Vis e Ret.

Fixpoint bind {A B} (p : Prog A) (f : A -> Prog B) : Prog B :=
  match p with
  | Ret a => f a
  | Throw => Throw
  | Vis e k => Vis e (fun x => bind (k x) f)
  end.

(** [try { p } catch (error) { handler }] *)
Fixpoint try_catch {A} (p : Prog A) (handler : Prog A) : Prog A :=
  match p with
  | Ret a => Ret a
  | Throw => handler
  | Vis e k => Vis e (fun x => try_catch (k x) handler)
  end.

(** A value that is there, or the exception raised for lack of it. *)
Definition orThrow {A} (x : option A) : Prog A :=
  match x with Some a => Ret a | None => Throw end.

Declare Scope prog_scope.
Delimit Scope prog_scope with prog.
Notation "x <- p ;; q" := (bind p (fun x => q))
  (at level 61, p at next level, right associativity) : prog_scope.
Local Open Scope prog_scope.

(** ** The world a handler runs in *)

Record World := mkWorld {
  db : Db.t;
  clock : nat -> Z;        (* successive readings of the function's clock *)
  clock_reads : nat;
  entropy : nat -> byte;   (* the bytes the random source will deliver *)
  entropy_used : nat;
  env : string -> string }.

Definition with_db (d : Db.t) (w : World) : World :=
  mkWorld d (clock w) (clock_reads w) (entropy w) (entropy_used w) (env w).

Definition readClock (w : World) : Z * World :=
  (clock w (clock_reads w),
   mkWorld (db w) (clock w) (S (clock_reads w)) (entropy w) (entropy_used w) (env w)).

(** The next [n] bytes of the random source. *)
Definition entropyBytes (w : World) (n : nat) : list byte :=
  map (entropy w) (seq (entropy_used w) n).

Definition readEntropy (n : nat) (w : World) : list byte * World :=
  (entropyBytes w n,
   mkWorld (db w) (clock w) (clock_reads w) (entropy w) (entropy_used w + n) (env w)).

(** An event together with the answer it got, for traces. *)
Definition Call := { X : Type & (Event X * X)%type }.
Definition call {X} (e : Event X) (answer : X) : Call := existT _ X (e, answer).

(** The outcome of a run: what was returned ([None] for an uncaught
    exception), the world left behind, and the calls made, in order. *)
Record Outcome (R : Type) := mkOutcome {
  result : option R;
  final : World;
  trace : list Call }.
Arguments mkOutcome {R} result final trace.
Arguments result {R} o.
Arguments final {R} o.
Arguments trace {R} o.

Section Run.

Variable P : Platform.

(** What one event does to the world, and what it answers. *)
Definition handle {X} (e : Event X) (w : World) : X * World :=
  match e in Event X return X * World with
  | DateNow => readClock w
  | GetRandomValues n => readEntropy n w
  | EnvGet name => (env w name, w)
  | DeriveKey password salt iterations => (PBKDF2_SHA256 P password salt iterations, w)
  | Encrypt iv key data => (AES_GCM_encrypt P iv key data, w)
  | Decrypt iv key data => (AES_GCM_decrypt P iv key data, w)
  | BcryptHash password =>
      let (salt, w') := readEntropy 16 w in (bcrypt_hash P password salt, w')
  | BcryptVerify password hash => (bcrypt_verify P password hash, w)
  | JwtCreate header payload key => (djwt_create P header payload key, w)
  | JwtVerify token key =>
      let (now, w') := readClock w in (djwt_verify P token key now, w')
  | WalletCreateRandom =>
      let (seed, w') := readEntropy 16 w in (Wallet_createRandom P seed, w')
  | WalletNew privateKey => (Wallet_new P privateKey, w)
  | SignMessage signer message => (Wallet_signMessage P signer message, w)
  | SelectUserByEmail email => (Db.selectUserByEmail email (db w), w)
  | SelectUserById id => (Db.selectUserById id (db w), w)
  | InsertUser row =>
      let (r, d) := Db.insertUser row (db w) in (r, with_db d w)
  | InsertVideo row =>
      let (r, d) := Db.insertVideo row (db w) in (r, with_db d w)
  | UpdateUserUpdatedAt id ts => (tt, with_db (Db.updateUpdatedAt id ts (db w)) w)
  end.

Fixpoint run_from {R} (p : Prog R) (w : World) (seen : list Call) : Outcome R :=
  match p with
  | Ret r => mkOutcome (Some r) w (rev seen)
  | Throw => mkOutcome None w (rev seen)
  | Vis e k => let (x, w') := handle e w in run_from (k x) w' (call e x :: seen)
  end.

Definition run {R} (p : Prog R) (w : World) : Outcome R := run_from p w [].

(** One event of [p], when it has one left. *)
Definition step {R} (p : Prog R) (w : World) : Prog R * World :=
  match p with
  | Vis e k => let (x, w') := handle e w in (k x, w')
  | _ => (p, w)
  end.

(** Two requests served concurrently: [sched] says whose event goes next
    ([true]: the first request); once it is used up, the first request runs
    to its end, then the second. *)
Fixpoint interleave {R} (sched : list bool) (p q : Prog R) (w : World)
  : option R * option R * World :=
  match sched with
  | [] =>
      let o1 := run p w in
      let o2 := run q (final o1) in
      (result o1, result o2, final o2)
  | true :: s => let (p', w') := step p w in interleave s p' q w'
  | false :: s => let (q', w') := step q w in interleave s p q' w'
  end.

End Run.

(** ** Requests and responses *)

(** What a handler reads of a request: the method, the Authorization header,
    and the parsed JSON body ([None] when [req.json()] rejects).  A body field
    that is absent reads as the empty string: both are falsy. *)
Record Request (B : Type) := mkRequest {
  method : string;
  authorization : option string;
  json : option B }.
Arguments mkRequest {B} method authorization json.
Arguments method {B} r.
Arguments authorization {B} r.
Arguments json {B} r.

Record RegisterRequest := mkRegisterRequest {
  reg_email : string;
  reg_password : string }.

Record LoginRequest := mkLoginRequest {
  login_email : string;
  login_password : string }.

Record UploadVideoMetadataRequest := mkUploadRequest {
  videoUrl : string;
  title : string;
  password : string }.

(** The JSON documents the handlers answer with. *)
Inductive Body :=
| Text (text : string)
| Error (error : string)
| Registered (message : string) (user : User.public)
| LoggedIn (message : string) (token : string) (user : User.public)
| Uploaded (message : string) (video : Video.t).

Record Response := mkResponse { status : Z; body : Body }.

Definition errorResponse (status : Z) (error : string) : Response :=
  mkResponse status (Error error).

(** The answer to a CORS preflight: [new Response('ok', ...)]. *)
Definition preflight : Response := mkResponse 200 (Text "ok").

Definition LF : string := String "010"%char EmptyString.

(** ** register: supabase/functions/register/index.ts
       (src/unnamed/part_005, lines 1-186) *)

Definition register (req : Request RegisterRequest) : Prog Response :=
  if (method req =? "OPTIONS")%string then Ret preflight else
  try_catch
    (b <- orThrow (json req) ;;
     let email := reg_email b in
     let password := reg_password b in
     (* Validate input *)
     if JS.falsy email || JS.falsy password
     then Ret (errorResponse 400 "Email and password are required") else
     (* Validate email format *)
     if negb (JS.emailRegex_test email)
     then Ret (errorResponse 400 "Invalid email format") else
     (* Validate password strength *)
     if (String.length password <? 8)%nat
     then Ret (errorResponse 400 "Password must be at least 8 characters long") else
     (* Check if user already exists *)
     existingUser <- trigger (SelectUserByEmail email) ;;
     match existingUser with
     | DbOk _ => Ret (errorResponse 409 "User already exists with this email")
     | DbErr _ =>
         (* Hash password *)
         passwordHash <- trigger (BcryptHash password) ;;
         (* Generate new Ethereum wallet *)
         wallet <- trigger WalletCreateRandom ;;
         let walletAddress := address wallet in
         let privateKey := privateKey wallet in
         (* Generate random salt and IV for encryption *)
         salt <- trigger (GetRandomValues 32) ;;
         iv <- trigger (GetRandomValues 12) ;;
         (* Create key from password using PBKDF2 *)
         key <- trigger (DeriveKey (JS.TextEncoder_encode password) salt 100000) ;;
         (* Encrypt private key *)
         encryptedPrivateKey <-
           trigger (Encrypt iv key (JS.TextEncoder_encode privateKey)) ;;
         (* Convert to hex strings for storage *)
         let saltHex := JS.toHex salt in
         let ivHex := JS.toHex iv in
         let encryptedPrivateKeyHex := JS.toHex encryptedPrivateKey in
         (* Save user to database *)
         inserted <- trigger (InsertUser
           (User.mkInsert email walletAddress passwordHash walletAddress
              encryptedPrivateKeyHex saltHex ivHex)) ;;
         match inserted with
         | DbErr _ => Ret (errorResponse 500 "Failed to create user account")
         | DbOk user =>
             Ret (mkResponse 201
                    (Registered "User registered successfully" (User.to_public user)))
         end
     end)
    (Ret (errorResponse 500 "Internal server error")).

(** ** login: supabase/functions/login/index.ts
       (the second document of src/supabase/functions/upload-video-metadata/index.ts,
       lines 226-352) *)

(** djwt's [getNumericDate] of a [Date]: seconds, rounded. *)
Definition getNumericDate (t : Z) : Z := JS.round_div_1000 t.

Definition sevenDays : Z := 7 * 24 * 60 * 60 * 1000.

(** [crypto.subtle.importKey('raw', data, { name: 'HMAC', hash: 'SHA-256' },
    false, ['sign', 'verify'])]: WebCrypto rejects key data of length zero
    with a DataError; any other data is the key.  [None] is the rejection. *)
Definition importKey_HMAC (data : list byte) : option (list byte) :=
  match data with
  | [] => None
  | _ :: _ => Some data
  end.

Definition login (req : Request LoginRequest) : Prog Response :=
  if (method req =? "OPTIONS")%string then Ret preflight else
  try_catch
    (b <- orThrow (json req) ;;
     let email := login_email b in
     let password := login_password b in
     (* Validate input *)
     if JS.falsy email || JS.falsy password
     then Ret (errorResponse 400 "Email and password are required") else
     (* Find user by email *)
     found <- trigger (SelectUserByEmail email) ;;
     match found with
     | DbErr _ => Ret (errorResponse 401 "Invalid email or password")
     | DbOk user =>
         (* Verify password *)
         isValidPassword <- trigger (BcryptVerify password (User.passwordHash user)) ;;
         if negb isValidPassword
         then Ret (errorResponse 401 "Invalid email or password") else
         (* Generate JWT token *)
         jwtSecret <- trigger (EnvGet "JWT_SECRET") ;;
         key <- orThrow (importKey_HMAC (JS.TextEncoder_encode jwtSecret)) ;;
         issued <- trigger DateNow ;;
         now <- trigger DateNow ;;
         let payload :=
           Jwt.mkPayload (User.id user) (User.email user) (User.walletAddress user)
             (getNumericDate issued) (getNumericDate (now + sevenDays)) in
         token <- trigger (JwtCreate (Jwt.mkHeader "HS256" "JWT") payload key) ;;
         (* Update last login timestamp *)
         stamp <- trigger DateNow ;;
         _ <- trigger (UpdateUserUpdatedAt (User.id user) (JS.toISOString stamp)) ;;
         Ret (mkResponse 200 (LoggedIn "Login successful" token (User.to_public user)))
     end)
    (Ret (errorResponse 500 "Internal server error")).

(** ** upload-video-metadata: supabase/functions/upload-video-metadata/index.ts
       (lines 1-226)

    The module does not load (see the next section), so its handler has no
    runs to embed.  Of its text the embedding keeps the expressions that are
    well-formed on their own: the message of line 169, the hex decoding of
    lines 106-108 ([JS.fromHex]) and the derivation and decryption of lines
    111-141 ([unwrapped]). *)

(** The message that is signed. *)
Definition uploadMessage (videoUrl title isoTimestamp : string) : string :=
  "Video Upload: " ++ videoUrl ++ LF ++ "Title: " ++ title ++ LF
    ++ "Timestamp: " ++ isoTimestamp.

(** ** Loading the modules of the functions

    The runtime parses the whole of a module before it evaluates any of it.
    A statement list that declares one name twice with import, const or let
    is an early error of the language: the module is rejected with a
    SyntaxError at parsing, none of it is evaluated, its call of [serve]
    never happens, and the function has no handler to answer a request
    with. *)

(** The import, const and let declarations of one statement list, in source
    order: the line, and the name declared.  Type annotations and interfaces
    declare no name of the program. *)
Definition Block := list (nat * string).

(** The first declaration of a statement list whose name is declared
    earlier in the list. *)
Fixpoint redeclared (seen : list string) (block : Block) : option (nat * string) :=
  match block with
  | [] => None
  | (line, name) :: rest =>
      if existsb (String.eqb name) seen then Some (line, name)
      else redeclared (name :: seen) rest
  end.

Fixpoint earlyError (blocks : list Block) : option (nat * string) :=
  match blocks with
  | [] => None
  | block :: rest =>
      match redeclared [] block with
      | Some d => Some d
      | None => earlyError rest
      end
  end.

(** register (src/unnamed/part_005): the module, and the try block of
    line 22. *)
Definition register_declarations : list Block :=
  [ [(1, "serve"); (2, "createClient"); (3, "ethers"); (4, "hash"); (6, "corsHeaders")];
    [(23, "email"); (23, "password"); (37, "emailRegex"); (60, "supabaseUrl");
     (61, "supabaseServiceKey"); (63, "supabase"); (66, "existingUser");
     (66, "checkError"); (83, "passwordHash"); (86, "wallet"); (87, "walletAddress");
     (88, "privateKey"); (91, "salt"); (92, "iv"); (95, "keyMaterial"); (103, "key");
     (117, "encryptedPrivateKey"); (127, "saltHex"); (128, "ivHex");
     (129, "encryptedPrivateKeyHex"); (133, "user"); (133, "insertError")] ]%nat.

(** login (lines 226-352): the module, and the try block of line 247. *)
Definition login_declarations : list Block :=
  [ [(226, "serve"); (227, "createClient"); (228, "verify"); (229, "create");
     (229, "getNumericDate"); (231, "corsHeaders")];
    [(248, "email"); (248, "password"); (262, "supabaseUrl"); (263, "supabaseServiceKey");
     (265, "supabase"); (268, "user"); (268, "findError"); (285, "isValidPassword");
     (298, "jwtSecret"); (299, "key"); (307, "payload"); (315, "token")] ]%nat.

(** upload-video-metadata (lines 1-226): the module, the try block of line 31,
    and the try block of line 134 inside it.  The key imported from JWT_SECRET
    (line 48) and the key derived from the password (line 119) are two const
    declarations of the one name in the block of line 31. *)
Definition upload_video_metadata_declarations : list Block :=
  [ [(1, "serve"); (2, "createClient"); (3, "ethers"); (4, "verify"); (6, "corsHeaders")];
    [(33, "authHeader"); (44, "token"); (47, "jwtSecret"); (48, "key"); (56, "payload");
     (69, "videoUrl"); (69, "title"); (69, "password"); (83, "supabaseUrl");
     (84, "supabaseServiceKey"); (86, "supabase"); (89, "user"); (89, "userError");
     (106, "salt"); (107, "iv"); (108, "encryptedPrivateKey"); (111, "keyMaterial");
     (119, "key"); (133, "decryptedPrivateKey"); (155, "signer"); (169, "message");
     (172, "signature"); (175, "video"); (175, "insertError")];
    [(135, "decryptedBuffer")] ]%nat.

(** What the runtime serves for a module whose body passes [handler] to
    [serve]: that handler, unless the module has an early error. *)
Definition deployed {B} (declarations : list Block) (handler : Request B -> Prog Response)
  : option (Request B -> Prog Response) :=
  match earlyError declarations with
  | Some _ => None
  | None => Some handler
  end.

(** The function's answer to a request: the run of its handler, or no answer
    of the function's when it has none. *)
Definition respond {B} (P : Platform) (served : option (Request B -> Prog Response))
    (req : Request B) (w : World) : option (Outcome Response) :=
  match served with
  | Some handler => Some (run P (handler req) w)
  | None => None
  end.

(** ** Contracts of the platform functions *)

(** AES-GCM: decryption under the key and iv of the encryption gives the
    plaintext back, and a ciphertext carries its tag, so it is never empty. *)
Definition AES_GCM_correct (P : Platform) : Prop :=
  forall iv key data,
    AES_GCM_decrypt P iv key (AES_GCM_encrypt P iv key data) = Some data
    /\ AES_GCM_encrypt P iv key data <> [].

(** ** What the properties speak of *)

(** A request other than a CORS preflight whose body parses to [b]. *)
Definition posted {B} (req : Request B) (b : B) : Prop :=
  (method req =? "OPTIONS")%string = false /\ json req = Some b.

(** A request carrying [Authorization: Bearer token]. *)
Definition bearer {B} (req : Request B) (token : string) : Prop :=
  authorization req = Some ("Bearer " ++ token).

Definition noAccountWithEmail (email : string) (d : Db.t) : Prop :=
  forall u, In u (Db.users d) -> User.email u <> email.

(** The rows of "User" never share an email: the UNIQUE constraint. *)
Definition uniqueEmails (d : Db.t) : Prop := NoDup (map User.email (Db.users d)).

(** The wrapped-key bundle of a row decodes to these byte arrays. *)
Definition bundleDecodes (u : User.t) (salt iv ciphertext : list byte) : Prop :=
  JS.fromHex (User.salt u) = Some salt /\ JS.fromHex (User.iv u) = Some iv
  /\ JS.fromHex (User.encryptedPrivateKey u) = Some ciphertext.

(** What the text of the signing flow asks AES-GCM to decrypt, and under
    which key. *)
Definition unwrapped (P : Platform) (password : string) (salt iv ciphertext : list byte)
  : option (list byte) :=
  AES_GCM_decrypt P iv
    (PBKDF2_SHA256 P (JS.TextEncoder_encode password) salt 100000) ciphertext.

(** The wallet a [Wallet.createRandom()] call answered with. *)
Definition createdWallet (c : Call) : option Wallet :=
  match c with
  | existT _ X (e, answer) =>
      match e in Event X return X -> option Wallet with
      | WalletCreateRandom => fun wallet => Some wallet
      | _ => fun _ => None
      end answer
  end.

(** What the insert into "User" was answered, for a call that is one. *)
Definition insertUserAnswer (c : Call) : option (DbResult User.t) :=
  match c with
  | existT _ X (e, answer) =>
      match e in Event X return X -> option (DbResult User.t) with
      | InsertUser _ => fun r => Some r
      | _ => fun _ => None
      end answer
  end.

(** The wrapped-key bundle of a row: salt, iv and ciphertext, as stored. *)
Definition wrappedKey (u : User.t) : string * string * string :=
  (User.salt u, User.iv u, User.encryptedPrivateKey u).

(** The three input checks of register pass. *)
Definition acceptable (b : RegisterRequest) : Prop :=
  JS.falsy (reg_email b) = false /\ JS.falsy (reg_password b) = false
  /\ JS.emailRegex_test (reg_email b) = true
  /\ (String.length (reg_password b) <? 8)%nat = false.

(** Two rows agree on every column but updatedAt. *)
Definition sameButUpdatedAt (u u' : User.t) : Prop :=
  User.id u' = User.id u /\ User.email u' = User.email u
  /\ User.username u' = User.username u
  /\ User.passwordHash u' = User.passwordHash u
  /\ User.walletAddress u' = User.walletAddress u
  /\ User.encryptedPrivateKey u' = User.encryptedPrivateKey u
  /\ User.salt u' = User.salt u /\ User.iv u' = User.iv u
  /\ User.createdAt u' = User.createdAt u.

(** Both fields of a login body are there. *)
Definition filled (b : LoginRequest) : Prop :=
  JS.falsy (login_email b) = false /\ JS.falsy (login_password b) = false.

(** Lower-casing, on U+0000..U+00FF, and the comparison of emails that
    disregards letter case. *)
Definition toLowerCase_unit (c : ascii) : ascii :=
  let n := N_of_ascii c in
  if (((65 <=? n) && (n <=? 90)) || ((192 <=? n) && (n <=? 222) && negb (n =? 215)))%N
  then ascii_of_N (n + 32) else c.

Fixpoint toLowerCase (s : string) : string :=
  match s with
  | EmptyString => EmptyString
  | String c r => String (toLowerCase_unit c) (toLowerCase r)
  end.

Definition sameIgnoringCase (a b : string) : bool :=
  String.eqb (toLowerCase a) (toLowerCase b).

(** ** A small executable platform

    Stand-ins for the platform functions, simple enough to run inside the
    proof assistant, on which the handlers can be executed end to end.  They
    keep the contracts above and none of the cryptographic strength. *)

Module Toy.

Fixpoint bytes_eqb (a b : list byte) : bool :=
  match a, b with
  | [], [] => true
  | x :: a', y :: b' => Byte.eqb x y && bytes_eqb a' b'
  | _, _ => false
  end.

Definition digest (bs : list byte) : N :=
  fold_left (fun acc b => (acc * 31 + Byte.to_N b) mod 4294967296)%N bs 7%N.

(** Key derivation: 32 bytes spun out of a digest of password and salt. *)
Definition pbkdf2 (password salt : list byte) (iterations : N) : list byte :=
  let d := digest (password ++ x00 :: salt) in
  map (fun i => JS.byte_of_N ((d / 256 ^ (N.of_nat i mod 4) + N.of_nat i) mod 256)%N)
      (seq 0 32).

(** Authenticated encryption: a 16-byte tag of key and iv, then the data. *)
Definition tag (iv key : list byte) : list byte :=
  firstn 16 (key ++ iv ++ repeat x2a 16).

Definition encrypt (iv key data : list byte) : list byte := tag iv key ++ data.

Definition decrypt (iv key data : list byte) : option (list byte) :=
  if bytes_eqb (firstn 16 data) (tag iv key) then Some (skipn 16 data) else None.

Definition hash (password : string) (salt : list byte) : string :=
  "$toy$" ++ password.

Definition verify (password hash : string) : bool :=
  String.eqb hash ("$toy$" ++ password).

(** Wallets: a key is ["0x"] and 64 hex digits, its address the first 40. *)
Definition addressOf (key : string) : string :=
  "0x" ++ String.substring 2 40 key.

Definition createRandom (seed : list byte) : Wallet :=
  let key := "0x" ++ JS.toHex (firstn 32 (seed ++ seed ++ repeat x01 32)) in
  mkWallet (addressOf key) key.

Definition newWallet (key : string) : option Wallet :=
  if JS.startsWith "0x" key && (String.length key =? 66)%nat
  then Some (mkWallet (addressOf key) key) else None.

Definition signMessage (signer : Wallet) (message : string) : string :=
  let d := digest (JS.TextEncoder_encode (privateKey signer ++ message)) in
  "0x" ++ JS.toHex (map (fun i => JS.byte_of_N ((d / 256 ^ i) mod 256)%N) [3; 2; 1; 0]%N).

(** Tokens: six dot-separated fields, the key standing in for the MAC. *)
Fixpoint enc_pos (p : positive) : string :=
  match p with
  | xH => EmptyString
  | xO q => String "0" (enc_pos q)
  | xI q => String "1" (enc_pos q)
  end.

Definition enc_Z (z : Z) : string :=
  match z with
  | Z0 => "z"
  | Zpos p => String "p" (enc_pos p)
  | Zneg p => String "n" (enc_pos p)
  end.

Fixpoint dec_pos (s : string) : positive :=
  match s with
  | EmptyString => xH
  | String c r => if Ascii.eqb c "0" then xO (dec_pos r) else xI (dec_pos r)
  end.

Definition dec_Z (s : string) : Z :=
  match s with
  | String "p" r => Zpos (dec_pos r)
  | String "n" r => Zneg (dec_pos r)
  | _ => Z0
  end.

Definition enc_str (s : string) : string :=
  JS.toHex (map byte_of_ascii (list_ascii_of_string s)).

Definition dec_str (h : string) : string :=
  match JS.fromHex h with
  | Some bs => string_of_list_ascii (map ascii_of_byte bs)
  | None => EmptyString
  end.

Fixpoint split_dot (s : string) : list string :=
  match s with
  | EmptyString => [EmptyString]
  | String c r =>
      if Ascii.eqb c "." then EmptyString :: split_dot r
      else match split_dot r with
           | x :: xs => String c x :: xs
           | [] => [String c EmptyString]
           end
  end.

Definition leeway : Z := 1.

Definition create (header : Jwt.Header) (payload : Jwt.Payload) (key : list byte)
  : string :=
  String.concat "."
    [JS.toHex key; enc_Z (Z.of_N (Jwt.sub payload)); enc_str (Jwt.email payload);
     enc_str (Jwt.walletAddress payload); enc_Z (Jwt.iat payload);
     enc_Z (Jwt.exp payload)].

Definition verifyToken (token : string) (key : list byte) (now : Z)
  : option Jwt.Payload :=
  match split_dot token with
  | [mac; sub; email; wallet; iat; exp] =>
      if String.eqb mac (JS.toHex key) then
        if (dec_Z exp + leeway) * 1000 <? now then None
        else Some (Jwt.mkPayload (Z.to_N (dec_Z sub)) (dec_str email) (dec_str wallet)
                     (dec_Z iat) (dec_Z exp))
      else None
  | _ => None
  end.

Definition platform : Platform :=
  mkPlatform pbkdf2 encrypt decrypt hash verify create verifyToken
             createRandom newWallet signMessage.

Fixpoint no_dot (s : string) : bool :=
  match s with
  | EmptyString => true
  | String c r => negb (Ascii.eqb c ".") && no_dot r
  end.

End Toy.

(** ** The flows on the small platform *)

Module Scenario.

Definition secrets (name : string) : string :=
  if (name =? "JWT_SECRET")%string then "0123456789abcdef0123456789abcdef"
  else EmptyString.

(** An empty store whose clock is 37 ms ahead of the function's; the function's
    clock advances by a millisecond at each reading. *)
Definition w0 : World :=
  mkWorld (Db.mk [] [] 1%N 1704067200037)
          (fun n => 1704067200000 + Z.of_nat n) 0
          (fun n => JS.byte_of_N (N.of_nat (7 * n + 3) mod 256)) 0 secrets.

Definition post {B} (auth : option string) (b : B) : Request B :=
  mkRequest "POST" auth (Some b).

(** register("a@x.com", "Abcd1234") *)
Definition registration : RegisterRequest := mkRegisterRequest "a@x.com" "Abcd1234".
Definition registered : Outcome Response :=
  run Toy.platform (register (post None registration)) w0.
Definition w1 : World := final registered.

Definition wallet : Wallet := Toy.createRandom (map (entropy w0) (seq 16 16)).

Definition blank : User.t :=
  User.mk 0%N EmptyString EmptyString EmptyString EmptyString EmptyString
          EmptyString EmptyString EmptyString EmptyString.

(** The row of the account, as registration stored it. *)
Definition stored : User.t := nth 0 (Db.users (db w1)) blank.

(** authenticate("a@x.com", "Abcd1234") *)
Definition credentials : LoginRequest := mkLoginRequest "a@x.com" "Abcd1234".
Definition loggedIn : Outcome Response :=
  run Toy.platform (login (post None credentials)) w1.
Definition w2 : World := final loggedIn.

(** The row of the account, once logged in. *)
Definition account : User.t := nth 0 (Db.users (db w2)) blank.

Definition payload : Jwt.Payload :=
  Jwt.mkPayload 1%N "a@x.com" (address wallet)
    (getNumericDate 1704067200000) (getNumericDate (1704067200001 + sevenDays)).

Definition token : string :=
  Toy.create (Jwt.mkHeader "HS256" "JWT") payload (JS.TextEncoder_encode (secrets "JWT_SECRET")).

(** recordArtifact(token, "https://cdn/v1.mp4", "My Clip", password) *)
Definition signing (b : UploadVideoMetadataRequest) : Request UploadVideoMetadataRequest :=
  post (Some ("Bearer " ++ token)) b.

Definition clip : UploadVideoMetadataRequest :=
  mkUploadRequest "https://cdn/v1.mp4" "My Clip" "Abcd1234".

(** The same call with another password. *)
Definition wrongPassword : UploadVideoMetadataRequest :=
  mkUploadRequest "https://cdn/v1.mp4" "My Clip" "Abcd12345".

(** The store after the account's row has been deleted. *)
Definition w2deleted : World := with_db (db w0) w2.

(** The store after the walletAddress of the row has been overwritten. *)
Definition corrupted : User.t :=
  User.mk (User.id account) (User.email account) (User.username account)
    (User.passwordHash account) "0x0000000000000000000000000000000000000000"
    (User.encryptedPrivateKey account) (User.salt account) (User.iv account)
    (User.createdAt account) (User.updatedAt account).
Definition w2corrupted : World :=
  with_db (Db.mk [corrupted] [] (Db.next_uuid (db w2)) (Db.now (db w2))) w2.

(** The registered account before a login function whose JWT_SECRET is not
    set. *)
Definition w1unset : World :=
  mkWorld (db w1) (clock w1) (clock_reads w1) (entropy w1) (entropy_used w1)
          (fun _ => EmptyString).

(** The same call eight days later. *)
Definition w2expired : World :=
  mkWorld (db w2) (fun n => 1704067200000 + 8 * 24 * 60 * 60 * 1000 + Z.of_nat n)
          (clock_reads w2) (entropy w2) (entropy_used w2) (env w2).

(** The parts of the stored bundle. *)
Definition bytesOf (hex : string) : list byte :=
  match JS.fromHex hex with Some bs => bs | None => [] end.
Definition salt : list byte := bytesOf (User.salt account).
Definition iv : list byte := bytesOf (User.iv account).
Definition ciphertext : list byte := bytesOf (User.encryptedPrivateKey account).

(** register("A@x.com", "Abcd1234"), once "a@x.com" is registered. *)
Definition upperCase : RegisterRequest := mkRegisterRequest "A@x.com" "Abcd1234".
Definition registeredUpperCase : Outcome Response :=
  run Toy.platform (register (post None upperCase)) w1.

End Scenario.

(** ** Further vocabulary *)

(** A request to one of the two functions that load, and the handler that
    serves it. *)
Inductive Served :=
| ToRegister (req : Request RegisterRequest)
| ToLogin (req : Request LoginRequest).

Definition serve (s : Served) : Prog Response :=
  match s with
  | ToRegister req => register req
  | ToLogin req => login req
  end.

(** The method of a request to either function. *)
Definition servedMethod (s : Served) : string :=
  match s with
  | ToRegister req => method req
  | ToLogin req => method req
  end.

(** The token a [create] call of djwt answered with, and what it was made
    from. *)
Definition createdToken (c : Call) : option (Jwt.Header * Jwt.Payload * list byte * string) :=
  match c with
  | existT _ X (e, answer) =>
      match e in Event X return X -> option (Jwt.Header * Jwt.Payload * list byte * string) with
      | JwtCreate header payload key => fun token => Some (header, payload, key, token)
      | _ => fun _ => None
      end answer
  end.

(** The number of line feeds of a string. *)
Fixpoint lineFeeds (s : string) : nat :=
  match s with
  | EmptyString => 0
  | String c r => (if Ascii.eqb c "010" then 1 else 0) + lineFeeds r
  end.

(** bcrypt: [verify] accepts a password against a hash [hash] made of it. *)
Definition bcrypt_correct (P : Platform) : Prop :=
  forall password salt, bcrypt_verify P password (bcrypt_hash P password salt) = true.

(** The world once [n] more bytes of the random source have been read. *)
Definition afterEntropy (n : nat) (w : World) : World := snd (readEntropy n w).

(** The wallet that a registration served in [w] creates, and the row it
    inserts for the body [b]: bcrypt draws its salt first, then ethers its
    seed, then come the salt and the iv of the bundle. *)
Definition registrationWallet (P : Platform) (w : World) : Wallet :=
  Wallet_createRandom P (entropyBytes (afterEntropy 16 w) 16).

Definition registrationRow (P : Platform) (w : World) (b : RegisterRequest) : User.t :=
  let wallet := registrationWallet P w in
  let salt := entropyBytes (afterEntropy 16 (afterEntropy 16 w)) 32 in
  let iv := entropyBytes (afterEntropy 32 (afterEntropy 16 (afterEntropy 16 w))) 12 in
  let key := PBKDF2_SHA256 P (JS.TextEncoder_encode (reg_password b)) salt 100000 in
  User.mk (Db.next_uuid (db w)) (reg_email b) (address wallet)
    (bcrypt_hash P (reg_password b) (entropyBytes w 16)) (address wallet)
    (JS.toHex (AES_GCM_encrypt P iv key (JS.TextEncoder_encode (privateKey wallet))))
    (JS.toHex salt) (JS.toHex iv)
    (JS.toISOString (Db.now (db w))) (JS.toISOString (Db.now (db w))).

(** Every character of a string is in a class. *)
Fixpoint allChars (p : ascii -> bool) (s : string) : bool :=
  match s with
  | EmptyString => true
  | String c r => p c && allChars p r
  end.

(** A digit of lower-case hexadecimal text. *)
Definition isLowerHexDigit (c : ascii) : bool :=
  let n := N_of_ascii c in
  (((48 <=? n) && (n <=? 57)) || ((97 <=? n) && (n <=? 102)))%N.

(** *** Registrations served together *)

(** The email of the row an event inserts into "User", if it is such an
    insert, and whether the insert was answered with the new row. *)
Definition insertsEmail {X} (e : Event X) : option string :=
  match e with
  | InsertUser row => Some (User.i_email row)
  | _ => None
  end.

Definition insertedUser {X} (e : Event X) : X -> bool :=
  match e in Event X return X -> bool with
  | InsertUser _ => fun r => match r with DbOk _ => true | DbErr _ => false end
  | _ => fun _ => false
  end.

(** A handler that has nothing left to do. *)
Definition isTerminal {R} (p : Prog R) : Prop :=
  match p with
  | Vis _ _ => False
  | _ => True
  end.

(** What is left of a handler that can answer 201 only right after its own
    insert of a row with [email] has been answered with the row. *)
Fixpoint awaits (email : string) (p : Prog Response) : Prop :=
  match p with
  | Ret r => status r <> 201
  | Throw => True
  | Vis e k =>
      (forall inserted, insertsEmail e = Some inserted -> inserted = email)
      /\ forall x, if insertedUser e x then isTerminal (k x) else awaits email (k x)
  end.

(** The emails of the rows of "User". *)
Definition emails (w : World) : list string := map User.email (Db.users (db w)).

(** ** The browser client

    client/src/services/api.ts, the AuthProvider of client/src/hooks/useAuth.tsx
    (src/unnamed/part_003) and the rules of the forms of RegisterPage.tsx,
    LoginPage.tsx (src/unnamed/part_001) and UploadPage.tsx.

    - [localStorage] is read and written under two keys only; it is the first
      two fields of [Browser].
    - axios is not code of the repository.  Of it the model keeps what api.ts
      relies on: a POST carries what the request interceptor adds, a response
      whose status is not 2xx rejects the call (the default validateStatus),
      and a rejection goes through the response interceptor.  The function
      called is the one deployed under the path of the call.
    - React state, toasts and navigation are fields of [Browser]; a page load
      that an assignment to window.location.href starts is not followed. *)

Module Client.

(** client/src/types/index.ts *)
Record RegisterData := mkRegisterData {
  rd_email : string;
  rd_password : string;
  rd_confirmPassword : string }.

Record LoginData := mkLoginData {
  ld_email : string;
  ld_password : string }.

Record UploadVideoData := mkUploadVideoData {
  ud_title : string;
  ud_password : string }.

Record AuthState := mkAuthState {
  as_user : option User.public;
  as_token : option string;
  as_loading : bool;
  as_error : option string }.

(** A value of localStorage under 'user': the JSON text of a user, or some
    other text. *)
Inductive Item :=
| UserJson (user : User.public)
| Raw (text : string).

Inductive Toast :=
| success (message : string)
| error (message : string).

Record Browser := mkBrowser {
  ls_auth_token : option string;   (* localStorage.getItem('auth_token') *)
  ls_user : option Item;           (* localStorage.getItem('user') *)
  href : string;                   (* the location *)
  authState : AuthState;
  toasts : list Toast }.

(** *** api.ts *)

(** Request interceptor: the Authorization header it sets, if any. *)
Definition requestInterceptor (br : Browser) : option string :=
  match ls_auth_token br with
  | Some token => if JS.falsy token then None else Some ("Bearer " ++ token)
  | None => None
  end.

(** The request of [api.post(path, data)], as the function sees it. *)
Definition request {B} (br : Browser) (data : B) : Request B :=
  mkRequest "POST" (requestInterceptor br) (Some data).

(** How a call settles: with a response, or with an error that may carry
    one. *)
Inductive Settled :=
| Fulfilled (response : Response)
| Rejected (response : option Response).

Definition validateStatus (status : Z) : bool := (200 <=? status) && (status <? 300).

(** Response interceptor, on an error. *)
Definition responseInterceptor (response : option Response) (br : Browser) : Browser :=
  match response with
  | Some r =>
      if status r =? 401
      then mkBrowser None None "/login" (authState br) (toasts br)
      else br
  | None => br
  end.

(** [api.post(path, data)] against the function deployed under the path; a
    run that ends without an answer is an error without a response. *)
Definition post {B} (P : Platform) (handler : Request B -> Prog Response) (data : B)
    (br : Browser) (w : World) : Settled * Browser * World :=
  let o := run P (handler (request br data)) w in
  match result o with
  | Some r =>
      if validateStatus (status r) then (Fulfilled r, br, final o)
      else (Rejected (Some r), responseInterceptor (Some r) br, final o)
  | None => (Rejected None, responseInterceptor None br, final o)
  end.

Definition authApi_register (P : Platform) (data : RegisterData) :=
  post P register (mkRegisterRequest (rd_email data) (rd_password data)).

Definition authApi_login (P : Platform) (data : LoginData) :=
  post P login (mkLoginRequest (ld_email data) (ld_password data)).

(** *** useAuth *)

(** [response.token] and [response.user] of a response body; [None] is
    [undefined]. *)
Definition response_token (data : Body) : option string :=
  match data with
  | LoggedIn _ token _ => Some token
  | _ => None
  end.

Definition response_user (data : Body) : option User.public :=
  match data with
  | LoggedIn _ _ user => Some user
  | Registered _ user => Some user
  | _ => None
  end.

(** [error.response?.data?.error || fallback] *)
Definition errorMessage (response : option Response) (fallback : string) : string :=
  match response with
  | Some r =>
      match body r with
      | Error m => if JS.falsy m then fallback else m
      | _ => fallback
      end
  | None => fallback
  end.

Definition setAuthState (s : AuthState) (br : Browser) : Browser :=
  mkBrowser (ls_auth_token br) (ls_user br) (href br) s (toasts br).

Definition toast (t : Toast) (br : Browser) : Browser :=
  mkBrowser (ls_auth_token br) (ls_user br) (href br) (authState br) (toasts br ++ [t]).

Definition navigate (to : string) (br : Browser) : Browser :=
  mkBrowser (ls_auth_token br) (ls_user br) to (authState br) (toasts br).

(** [login] of the AuthProvider; the flag says whether it returned, rather
    than threw. *)
Definition useAuth_login (P : Platform) (data : LoginData) (br : Browser) (w : World)
  : bool * Browser * World :=
  let prev := authState br in
  let br := setAuthState (mkAuthState (as_user prev) (as_token prev) true None) br in
  let '(settled, br, w) := authApi_login P data br w in
  match settled with
  | Fulfilled r =>
      let token := response_token (body r) in
      let user := response_user (body r) in
      (* Store auth data; setItem writes undefined as the text 'undefined' *)
      let br :=
        mkBrowser
          (Some (match token with Some t => t | None => "undefined" end))
          (Some (match user with Some u => UserJson u | None => Raw "undefined" end))
          (href br) (authState br) (toasts br) in
      let br := setAuthState (mkAuthState user token false None) br in
      let br := toast (success "Login successful!") br in
      (true, navigate "/" br, w)
  | Rejected e =>
      let m := errorMessage e "Login failed" in
      let prev := authState br in
      let br := setAuthState (mkAuthState (as_user prev) (as_token prev) false (Some m)) br in
      (false, toast (error m) br, w)
  end.

Definition useAuth_register (P : Platform) (data : RegisterData) (br : Browser) (w : World)
  : bool * Browser * World :=
  let prev := authState br in
  let br := setAuthState (mkAuthState (as_user prev) (as_token prev) true None) br in
  let '(settled, br, w) := authApi_register P data br w in
  match settled with
  | Fulfilled r =>
      let prev := authState br in
      let br := setAuthState (mkAuthState (as_user prev) (as_token prev) false None) br in
      let br := toast (success "Registration successful! Please login.") br in
      (true, navigate "/login" br, w)
  | Rejected e =>
      let m := errorMessage e "Registration failed" in
      let prev := authState br in
      let br := setAuthState (mkAuthState (as_user prev) (as_token prev) false (Some m)) br in
      (false, toast (error m) br, w)
  end.

Definition logout (br : Browser) : Browser :=
  let br := mkBrowser None None (href br) (authState br) (toasts br) in
  let br := setAuthState (mkAuthState None None false None) br in
  let br := toast (success "Logged out successfully") br in
  navigate "/login" br.

(** *** The rules of the forms *)

Definition isUpper (c : ascii) : bool :=
  let n := N_of_ascii c in ((65 <=? n) && (n <=? 90))%N.
Definition isLower (c : ascii) : bool :=
  let n := N_of_ascii c in ((97 <=? n) && (n <=? 122))%N.
Definition isDigit (c : ascii) : bool :=
  let n := N_of_ascii c in ((48 <=? n) && (n <=? 57))%N.

(** [[A-Z]] under the flag i. *)
Definition isLetter (c : ascii) : bool := isUpper c || isLower c.

(** [[A-Z0-9._%+-]] under the flag i. *)
Definition isLocalChar (c : ascii) : bool :=
  isLetter c || isDigit c || Ascii.eqb c "." || Ascii.eqb c "_" || Ascii.eqb c "%"
  || Ascii.eqb c "+" || Ascii.eqb c "-".

(** [[A-Z0-9.-]] under the flag i. *)
Definition isDomainChar (c : ascii) : bool :=
  isLetter c || isDigit c || Ascii.eqb c "." || Ascii.eqb c "-".

(** [/^[A-Z]{2,}$/i] *)
Definition topLevel_test (s : string) : bool :=
  (2 <=? String.length s)%nat && allChars isLetter s.

(** [/^[A-Z0-9.-]*\.[A-Z]{2,}$/i]: at each character, either it is the dot
    before the last part, or it is one more of the class. *)
Fixpoint domainRest_test (s : string) : bool :=
  match s with
  | EmptyString => false
  | String c r =>
      (Ascii.eqb c "." && topLevel_test r) || (isDomainChar c && domainRest_test r)
  end.

(** [/^[A-Z0-9._%+-]+@[A-Z0-9.-]+\.[A-Z]{2,}$/i.test(s)]: the class before
    the at sign holds no at sign, so the first one ends that part. *)
Definition emailPattern_test (s : string) : bool :=
  match JS.splitAt s with
  | Some (loc, dom) =>
      negb (JS.falsy loc) && allChars isLocalChar loc
      && match dom with
         | String c r => isDomainChar c && domainRest_test r
         | EmptyString => false
         end
  | None => false
  end.

(** [/^.*x/] for a class x: [.] matches all but line terminators. *)
Fixpoint dotStarThen (p : ascii -> bool) (s : string) : bool :=
  match s with
  | EmptyString => false
  | String c r => p c || (negb (JS.isLineTerminator c) && dotStarThen p r)
  end.

(** [/^(?=.*[a-z])(?=.*[A-Z])(?=.*\d)/.test(s)] *)
Definition passwordPattern_test (s : string) : bool :=
  dotStarThen isLower s && dotStarThen isUpper s && dotStarThen isDigit s.

(** The error react-hook-form reports for a field: the message of the first
    rule that fails, in the order required, maxLength and minLength, pattern,
    validate.  handleSubmit calls onSubmit, and so the function of api.ts,
    only when no field has an error. *)
Definition RegisterPage_email (value : string) : option string :=
  if JS.falsy value then Some "Email is required"
  else if negb (emailPattern_test value) then Some "Invalid email address"
  else None.

Definition RegisterPage_password (value : string) : option string :=
  if JS.falsy value then Some "Password is required"
  else if (String.length value <? 8)%nat
  then Some "Password must be at least 8 characters long"
  else if negb (passwordPattern_test value)
  then Some "Password must contain at least one uppercase letter, one lowercase letter, and one number"
  else None.

Definition RegisterPage_confirmPassword (password value : string) : option string :=
  if JS.falsy value then Some "Please confirm your password"
  else if (value =? password)%string then None
  else Some "Passwords do not match".

(** The errors of the form of RegisterPage. *)
Definition RegisterPage_errors (data : RegisterData) : list string :=
  let field e := match e with Some m => [m] | None => [] end in
  (field (RegisterPage_email (rd_email data))
   ++ field (RegisterPage_password (rd_password data))
   ++ field (RegisterPage_confirmPassword (rd_password data) (rd_confirmPassword data)))%list.

Definition LoginPage_email (value : string) : option string :=
  if JS.falsy value then Some "Email is required"
  else if negb (emailPattern_test value) then Some "Invalid email address"
  else None.

Definition LoginPage_password (value : string) : option string :=
  if JS.falsy value then Some "Password is required" else None.

Definition LoginPage_errors (data : LoginData) : list string :=
  let field e := match e with Some m => [m] | None => [] end in
  (field (LoginPage_email (ld_email data)) ++ field (LoginPage_password (ld_password data)))%list.

(** The form of UploadPage registers the title and the password. *)
Definition UploadPage_title (value : string) : option string :=
  if JS.falsy value then Some "Video title is required"
  else if (100 <? String.length value)%nat then Some "Title must be less than 100 characters"
  else if (String.length value <? 3)%nat then Some "Title must be at least 3 characters long"
  else None.

Definition UploadPage_password (value : string) : option string :=
  if JS.falsy value then Some "Password is required to sign the video" else None.

Definition UploadPage_errors (data : UploadVideoData) : list string :=
  let field e := match e with Some m => [m] | None => [] end in
  (field (UploadPage_title (ud_title data))
   ++ field (UploadPage_password (ud_password data)))%list.

End Client.

(** ** A visit of the scenario's account with the browser client *)

Module Visit.

(** The browser before anyone has signed in. *)
Definition fresh : Client.Browser :=
  Client.mkBrowser None None "/login" (Client.mkAuthState None None false None) [].

(** login({email: "a@x.com", password: "Abcd1234"}), once the account is
    registered, and the browser it leaves. *)
Definition credentials : Client.LoginData := Client.mkLoginData "a@x.com" "Abcd1234".
Definition signedIn : Client.Browser :=
  snd (fst (Client.useAuth_login Toy.platform credentials fresh Scenario.w1)).

(** The form of RegisterPage, filled in. *)
Definition form : Client.RegisterData :=
  Client.mkRegisterData "a@x.com" "Abcd1234" "Abcd1234".

End Visit.

(** * Properties *)

Arguments JS.toISOString : simpl never.
Arguments JS.toHex : simpl never.
Arguments JS.fromHex : simpl never.
Arguments JS.TextEncoder_encode : simpl never.
Arguments JS.TextDecoder_decode : simpl never.
Arguments JS.emailRegex_test : simpl never.
Arguments String.eqb : simpl never.
Arguments Nat.ltb : simpl never.
Arguments entropyBytes : simpl never.
Arguments JS.falsy : simpl never.
Arguments JS.startsWith : simpl never.
Arguments JS.substring_from : simpl never.
Arguments Db.insertUser : simpl never.
Arguments Db.insertVideo : simpl never.
Arguments Db.selectUserByEmail : simpl never.
Arguments Db.selectUserById : simpl never.
Arguments Db.updateUpdatedAt : simpl never.
Arguments importKey_HMAC : simpl never.
Arguments uploadMessage : simpl never.

(** An answer fixed by the handler that is not the one supposed. *)
Ltac other_answer :=
  let H := fresh in intros H; cbv beta delta [preflight errorResponse] in H; discriminate H.

(** Case analysis on whatever the run is waiting for. *)
Ltac paths :=
  repeat (cbn;
    match goal with
    | |- context [orThrow ?x] => destruct x eqn:?
    | |- context [match ?x with Some _ => _ | None => _ end] => destruct x eqn:?
    | |- context [match ?x with DbOk _ => _ | DbErr _ => _ end] => destruct x eqn:?
    | |- context [if ?x then _ else _] => destruct x eqn:?
    | |- context [let (_, _) := ?x in _] => destruct x eqn:?
    end);
  cbn.

(** ** The built-ins on examples *)

Example toHex_ex : JS.toHex [x00; x0f; xa5; xff] = "000fa5ff".
Proof. reflexivity. Qed.

Example fromHex_ex : JS.fromHex "000fa5ff" = Some [x00; x0f; xa5; xff].
Proof. reflexivity. Qed.

Example fromHex_odd : JS.fromHex "abc" = Some [xab; x0c].
Proof. reflexivity. Qed.

Example fromHex_junk : JS.fromHex "zz-10x" = Some [x00; xff; x00].
Proof. reflexivity. Qed.

Example fromHex_empty : JS.fromHex "" = None.
Proof. reflexivity. Qed.

Example toISOString_epoch : JS.toISOString 0 = "1970-01-01T00:00:00.000Z".
Proof. reflexivity. Qed.

Example toISOString_2024 : JS.toISOString 1704067200123 = "2024-01-01T00:00:00.123Z".
Proof. reflexivity. Qed.

Example toISOString_leap : JS.toISOString 1709251199999 = "2024-02-29T23:59:59.999Z".
Proof. reflexivity. Qed.

Example emailRegex_ex :
  JS.emailRegex_test "a@x.com" = true /\ JS.emailRegex_test "A@x.com" = true
  /\ JS.emailRegex_test "a@x" = false /\ JS.emailRegex_test "a@.com" = false
  /\ JS.emailRegex_test "a b@x.com" = false /\ JS.emailRegex_test "a@b@x.com" = false.
Proof. repeat split; reflexivity. Qed.

(** ** Runs and their traces *)

Section RunFacts.

Variable P : Platform.

Lemma run_from_trace {R} (p : Prog R) :
  forall w seen, exists rest, trace (run_from P p w seen) = (rev seen ++ rest)%list.
Proof.
  induction p as [r | | X e k IH]; intros w seen; simpl.
  - exists []. now rewrite app_nil_r.
  - exists []. now rewrite app_nil_r.
  - destruct (handle P e w) as [x w'].
    destruct (IH x w' (call e x :: seen)) as [rest Hrest].
    exists (call e x :: rest). rewrite Hrest. simpl. now rewrite <- app_assoc.
Qed.

Lemma run_from_seen {R} (p : Prog R) w seen a :
  In a seen -> In a (trace (run_from P p w seen)).
Proof.
  intros Hin. destruct (run_from_trace p w seen) as [rest ->].
  apply in_or_app. left. now apply in_rev in Hin.
Qed.

(** The events of a run, whatever came before it. *)
Lemma run_from_split {R} (p : Prog R) :
  forall w seen,
    result (run_from P p w seen) = result (run P p w)
    /\ final (run_from P p w seen) = final (run P p w)
    /\ trace (run_from P p w seen) = (rev seen ++ trace (run P p w))%list.
Proof.
  unfold run. induction p as [r | | X e k IH]; intros w seen; simpl.
  - repeat split. now rewrite app_nil_r.
  - repeat split. now rewrite app_nil_r.
  - destruct (handle P e w) as [x w'].
    destruct (IH x w' (call e x :: seen)) as (Hr & Hf & Ht).
    destruct (IH x w' [call e x]) as (Hr' & Hf' & Ht').
    rewrite Hr, Hf, Ht, Hr', Hf', Ht'. simpl.
    repeat split. now rewrite <- app_assoc.
Qed.

End RunFacts.

(** ** The hex codec of the wrapped-key bundle *)

Lemma concat_empty_cons (x : string) (xs : list string) :
  String.concat "" (x :: xs) = x ++ String.concat "" xs.
Proof.
  destruct xs as [| y ys]; simpl.
  - induction x as [| c x IH]; simpl; [reflexivity | now rewrite <- IH].
  - reflexivity.
Qed.

Lemma toHex_cons (b : byte) (bs : list byte) :
  JS.toHex (b :: bs) = JS.padStart2 (JS.toString16 b) ++ JS.toHex bs.
Proof. unfold JS.toHex. simpl map. apply concat_empty_cons. Qed.

Lemma match_dot12_byte (b : byte) (rest : string) :
  JS.match_dot12 (JS.padStart2 (JS.toString16 b) ++ rest)
  = JS.padStart2 (JS.toString16 b) :: JS.match_dot12 rest.
Proof. destruct b; reflexivity. Qed.

Lemma parseInt16_byte (b : byte) :
  JS.ToUint8 (JS.parseInt16 (JS.padStart2 (JS.toString16 b))) = b.
Proof. destruct b; reflexivity. Qed.

Lemma match_dot12_toHex (bs : list byte) :
  JS.match_dot12 (JS.toHex bs) = map (fun b => JS.padStart2 (JS.toString16 b)) bs.
Proof.
  induction bs as [| b bs IH]; [reflexivity |].
  rewrite toHex_cons, match_dot12_byte, IH. reflexivity.
Qed.

Lemma parseInt16_chunks (bs : list byte) :
  map (fun chunk => JS.ToUint8 (JS.parseInt16 chunk))
      (map (fun b => JS.padStart2 (JS.toString16 b)) bs) = bs.
Proof.
  induction bs as [| b bs IH]; [reflexivity |].
  cbn [map]. now rewrite parseInt16_byte, IH.
Qed.

(** Decoding the hex text of a non-empty byte array gives the array back. *)
Lemma fromHex_toHex (bs : list byte) :
  bs <> [] -> JS.fromHex (JS.toHex bs) = Some bs.
Proof.
  intros Hne. unfold JS.fromHex, JS.String_match.
  rewrite match_dot12_toHex.
  pose proof (parseInt16_chunks bs) as Hmap.
  destruct (map (fun b => JS.padStart2 (JS.toString16 b)) bs) as [| chunk chunks] eqn:E.
  - destruct bs; [contradiction | discriminate].
  - unfold option_map. now rewrite Hmap.
Qed.

(** The hex text of the empty array is empty, and does not decode. *)
Lemma fromHex_toHex_nil : JS.fromHex (JS.toHex []) = None.
Proof. reflexivity. Qed.

(** ** UTF-8 of strings *)

Lemma utf8_decode_code_unit (c : ascii) (rest : list byte) :
  JS.utf8_decode (JS.utf8_of_code_unit c ++ rest)%list
  = option_map (String c) (JS.utf8_decode rest).
Proof.
  destruct c as [[] [] [] [] [] [] [] []]; reflexivity.
Qed.

Lemma stripBOM_code_unit (c : ascii) (rest : list byte) :
  JS.stripBOM (JS.utf8_of_code_unit c ++ rest)%list = (JS.utf8_of_code_unit c ++ rest)%list.
Proof.
  destruct c as [[] [] [] [] [] [] [] []]; reflexivity.
Qed.

Lemma TextDecoder_TextEncoder (s : string) :
  JS.TextDecoder_decode (JS.TextEncoder_encode s) = Some s.
Proof.
  unfold JS.TextDecoder_decode, JS.TextEncoder_encode.
  destruct s as [| c s]; [reflexivity |].
  simpl list_ascii_of_string. simpl flat_map. rewrite stripBOM_code_unit.
  change (JS.utf8_decode (flat_map JS.utf8_of_code_unit (list_ascii_of_string (String c s)))
          = Some (String c s)).
  induction (String c s) as [| a r IH]; [reflexivity |].
  simpl list_ascii_of_string. simpl flat_map.
  now rewrite utf8_decode_code_unit, IH.
Qed.

(** ** The small platform keeps the contracts *)

Module ToyFacts.
Import Toy.

Lemma bytes_eqb_refl (a : list byte) : bytes_eqb a a = true.
Proof.
  induction a as [| x a IH]; [reflexivity |].
  simpl. rewrite IH, andb_true_r. now apply Byte.byte_dec_lb.
Qed.

Lemma tag_length iv key : List.length (tag iv key) = 16%nat.
Proof.
  unfold tag. rewrite length_firstn, !length_app, repeat_length. lia.
Qed.

Lemma AES_GCM_ok : AES_GCM_correct platform.
Proof.
  intros iv key data. simpl. unfold decrypt, encrypt. split.
  - rewrite firstn_app, tag_length, Nat.sub_diag, firstn_O, app_nil_r.
    rewrite firstn_all2 by (rewrite tag_length; lia).
    rewrite bytes_eqb_refl.
    rewrite skipn_app, tag_length, Nat.sub_diag, skipn_all2 by (rewrite tag_length; lia).
    reflexivity.
  - intros H. apply (f_equal (@List.length byte)) in H.
    rewrite length_app, tag_length in H. simpl in H. lia.
Qed.

End ToyFacts.

(** ** Lookups in the store *)

Lemma filter_none {A} (f : A -> bool) (l : list A) :
  (forall x, In x l -> f x = false) -> filter f l = [].
Proof.
  induction l as [| a l IH]; intros H; [reflexivity |].
  simpl. rewrite (H a (or_introl eq_refl)). apply IH.
  intros x Hx. apply H. now right.
Qed.

Lemma selectUserByEmail_none email d :
  noAccountWithEmail email d -> Db.selectUserByEmail email d = DbErr NotSingleRow.
Proof.
  intros H. unfold Db.selectUserByEmail. rewrite filter_none; [reflexivity |].
  intros u Hu. apply String.eqb_neq. now apply H.
Qed.

Lemma selectUserByEmail_some email d u :
  uniqueEmails d -> In u (Db.users d) -> User.email u = email ->
  Db.selectUserByEmail email d = DbOk u.
Proof.
  unfold uniqueEmails, Db.selectUserByEmail. intros Hnd Hin Heq.
  induction (Db.users d) as [| a l IH]; [contradiction |].
  simpl in Hnd. inversion Hnd as [| ? ? Hnotin Hnd']; subst.
  simpl. destruct Hin as [-> | Hin].
  - rewrite String.eqb_refl. rewrite filter_none; [reflexivity |].
    intros x Hx. apply String.eqb_neq. intros Hx'.
    apply Hnotin. rewrite <- Hx'. now apply in_map.
  - destruct (String.eqb_spec (User.email a) (User.email u)) as [E | E].
    + exfalso. apply Hnotin. rewrite E. now apply in_map.
    + now apply IH.
Qed.

(** ** Registration *)

Section Registration.

Variable P : Platform.

(** A registration answered 201 went through every check, and this is what it
    stored: the email as given, and the hex text of the salt, of the iv and
    of the AES-GCM encryption of the private key of the wallet it created
    under the PBKDF2 key of the password. *)
Lemma register_created (w : World) (req : Request RegisterRequest)
    (message : string) (pub : User.public) :
  let o := run P (register req) w in
  result o = Some (mkResponse 201 (Registered message pub)) ->
  exists (b : RegisterRequest) (u : User.t) (wallet : Wallet) (salt iv : list byte),
    posted req b
    /\ (forall u', Db.selectUserByEmail (reg_email b) (db w) <> DbOk u')
    /\ map createdWallet (trace o) = [None; None; Some wallet; None; None; None; None; None]
    /\ Db.users (db (final o)) = (Db.users (db w) ++ [u])%list
    /\ Db.videos (db (final o)) = Db.videos (db w)
    /\ User.to_public u = pub
    /\ User.email u = reg_email b
    /\ User.username u = address wallet
    /\ User.walletAddress u = address wallet
    /\ User.salt u = JS.toHex salt
    /\ User.iv u = JS.toHex iv
    /\ User.encryptedPrivateKey u
       = JS.toHex (AES_GCM_encrypt P iv
           (PBKDF2_SHA256 P (JS.TextEncoder_encode (reg_password b)) salt 100000)
           (JS.TextEncoder_encode (privateKey wallet)))
    /\ List.length salt = 32%nat /\ List.length iv = 12%nat.
Proof.
  intros o. subst o. unfold run, register.
  destruct (method req =? "OPTIONS")%string eqn:Hm; cbn; [other_answer |].
  destruct (json req) as [b |] eqn:Hj; cbn; [| other_answer].
  destruct (JS.falsy (reg_email b) || JS.falsy (reg_password b)); cbn;
    [other_answer |].
  destruct (negb (JS.emailRegex_test (reg_email b))); cbn; [other_answer |].
  destruct (String.length (reg_password b) <? 8)%nat; cbn; [other_answer |].
  destruct (Db.selectUserByEmail (reg_email b) (db w)) as [? | ?] eqn:Hsel; cbn;
    [other_answer |].
  match goal with |- context [Db.insertUser ?row ?d] =>
    unfold Db.insertUser; destruct (Db.violatesUnique row d) end;
    cbn; [other_answer |].
  intros H. injection H as <- <-.
  eexists b, _, _, _, _.
  repeat split; try reflexivity; try assumption.
  intros u' Hu'. rewrite Hsel in Hu'. discriminate.
Qed.

(** C5, as the code has it. Registration answers 409 exactly when a row holds
    the very email of the request, compared code unit by code unit: with an
    acceptable body and the UNIQUE constraint on emails in force, such a row
    gives 409 and an untouched store; a 409 means there is such a row; and a
    registration that succeeds stores the email as it was given. *)
Theorem email_taken_is_exact_match (w : World) (req : Request RegisterRequest)
    (b : RegisterRequest) :
  posted req b ->
  let o := run P (register req) w in
  (forall u, acceptable b -> uniqueEmails (db w) ->
     In u (Db.users (db w)) -> User.email u = reg_email b ->
     result o = Some (errorResponse 409 "User already exists with this email")
     /\ db (final o) = db w)
  /\ (result o = Some (errorResponse 409 "User already exists with this email") ->
      exists u, In u (Db.users (db w)) /\ User.email u = reg_email b)
  /\ (forall message pub,
        result o = Some (mkResponse 201 (Registered message pub)) ->
        exists u, Db.users (db (final o)) = (Db.users (db w) ++ [u])%list
                  /\ User.email u = reg_email b).
Proof.
  intros [Hm Hj] o. split; [| split].
  - intros u (Hfe & Hfp & Hre & Hlen) Hunique Hin Heq. subst o.
    unfold run, register. rewrite Hm, Hj. cbn.
    rewrite Hfe, Hfp, Hre, Hlen. cbn.
    now rewrite (selectUserByEmail_some _ _ _ Hunique Hin Heq).
  - subst o. unfold run, register. rewrite Hm, Hj. cbn.
    destruct (JS.falsy (reg_email b) || JS.falsy (reg_password b)); cbn;
      [other_answer |].
    destruct (negb (JS.emailRegex_test (reg_email b))); cbn; [other_answer |].
    destruct (String.length (reg_password b) <? 8)%nat; cbn; [other_answer |].
    unfold Db.selectUserByEmail.
    destruct (filter (fun u => (User.email u =? reg_email b)%string) (Db.users (db w)))
      as [| u [| u' l]] eqn:Hf; cbn.
    1, 3: match goal with |- context [Db.insertUser ?row ?d] =>
            destruct (Db.insertUser row d) as [[? | ?] ?] end; cbn; other_answer.
    intros _. exists u.
    assert (Hu : In u (filter (fun u => (User.email u =? reg_email b)%string)
                         (Db.users (db w)))) by (rewrite Hf; now left).
    apply filter_In in Hu as [Hin Heq]. split; [assumption | now apply String.eqb_eq].
  - intros message pub H.
    destruct (register_created w req message pub H)
      as (b0 & u & wallet & salt & iv & [_ Hj0] & _ & _ & Husers & _ & _ & Hemail & _).
    rewrite Hj in Hj0. injection Hj0 as <-. now exists u.
Qed.

(** The expressions of the signing flow recover the key a registration
    wrapped. *)
Lemma registered_bundle_unwraps (b : RegisterRequest) (u u' : User.t)
    (wallet : Wallet) (salt iv : list byte) (pw : string) :
  AES_GCM_correct P ->
  List.length salt = 32%nat -> List.length iv = 12%nat ->
  User.salt u = JS.toHex salt -> User.iv u = JS.toHex iv ->
  User.encryptedPrivateKey u
    = JS.toHex (AES_GCM_encrypt P iv
        (PBKDF2_SHA256 P (JS.TextEncoder_encode (reg_password b)) salt 100000)
        (JS.TextEncoder_encode (privateKey wallet))) ->
  wrappedKey u' = wrappedKey u -> pw = reg_password b ->
  exists ciphertext,
    bundleDecodes u' salt iv ciphertext
    /\ unwrapped P pw salt iv ciphertext = Some (JS.TextEncoder_encode (privateKey wallet)).
Proof.
  intros Hgcm Hls Hli Hs Hi He Hw ->. unfold wrappedKey in Hw.
  injection Hw as Hs' Hi' He'.
  destruct (Hgcm iv (PBKDF2_SHA256 P (JS.TextEncoder_encode (reg_password b)) salt 100000)
                 (JS.TextEncoder_encode (privateKey wallet))) as [Hdec Hne].
  eexists. split.
  - unfold bundleDecodes. rewrite Hs', Hi', He', Hs, Hi, He.
    rewrite !fromHex_toHex; auto.
    + intros ->. discriminate.
    + intros ->. discriminate.
  - exact Hdec.
Qed.

End Registration.

Section RegistrationPaths.

Variable P : Platform.

(** Whatever makes the insert fail, a uniqueness violation included, the
    answer is the generic 500: register does not look at the error. *)
Lemma register_insert_failure (w : World) (req : Request RegisterRequest) (e : DbError) :
  let o := run P (register req) w in
  In (Some (DbErr e)) (map insertUserAnswer (trace o)) ->
  result o = Some (errorResponse 500 "Failed to create user account").
Proof.
  intros o. subst o. unfold run, register. paths;
    intros H; cbn in H;
    repeat (destruct H as [H | H]; try discriminate H); try contradiction;
    reflexivity.
Qed.

End RegistrationPaths.

(** ** Login *)

Lemma getNumericDate_sevenDays (t : Z) :
  getNumericDate (t + sevenDays) = getNumericDate t + 7 * 24 * 60 * 60.
Proof.
  unfold getNumericDate, JS.round_div_1000, sevenDays.
  replace (t + 7 * 24 * 60 * 60 * 1000 + 500) with (t + 500 + (7 * 24 * 60 * 60) * 1000) by lia.
  now rewrite Z.div_add by lia.
Qed.

Lemma importKey_HMAC_some (data key : list byte) :
  importKey_HMAC data = Some key -> key = data.
Proof. destruct data; [discriminate |]. now intros [= <-]. Qed.

Lemma TextEncoder_encode_nil (s : string) :
  JS.TextEncoder_encode s = [] -> s = EmptyString.
Proof.
  destruct s as [| c r]; [reflexivity |].
  intros H. apply (f_equal JS.TextDecoder_decode) in H.
  rewrite TextDecoder_TextEncoder in H. discriminate H.
Qed.

(** The secret is set: importing it as a key succeeds. *)
Lemma importKey_HMAC_secret (secret : string) :
  JS.falsy secret = false ->
  importKey_HMAC (JS.TextEncoder_encode secret) = Some (JS.TextEncoder_encode secret).
Proof.
  intros H. unfold importKey_HMAC.
  destruct (JS.TextEncoder_encode secret) eqn:E; [| reflexivity].
  apply TextEncoder_encode_nil in E. subst secret. discriminate H.
Qed.

Section Login.

Variable P : Platform.

(** A login answered with a token found the row, checked the password, and
    this is the token it made and the update it wrote. *)
Lemma login_succeeded (w : World) (req : Request LoginRequest)
    (message token : string) (pub : User.public) :
  let o := run P (login req) w in
  result o = Some (mkResponse 200 (LoggedIn message token pub)) ->
  exists (b : LoginRequest) (u : User.t),
    posted req b
    /\ Db.selectUserByEmail (login_email b) (db w) = DbOk u
    /\ bcrypt_verify P (login_password b) (User.passwordHash u) = true
    /\ pub = User.to_public u
    /\ token = djwt_create P (Jwt.mkHeader "HS256" "JWT")
                 (Jwt.mkPayload (User.id u) (User.email u) (User.walletAddress u)
                    (getNumericDate (clock w (clock_reads w)))
                    (getNumericDate (clock w (S (clock_reads w)) + sevenDays)))
                 (JS.TextEncoder_encode (env w "JWT_SECRET"))
    /\ db (final o)
       = Db.updateUpdatedAt (User.id u)
           (JS.toISOString (clock w (S (S (clock_reads w))))) (db w).
Proof.
  intros o. subst o. unfold run, login.
  destruct (method req =? "OPTIONS")%string eqn:Hm; cbn; [other_answer |].
  destruct (json req) as [b |] eqn:Hj; cbn; [| other_answer].
  destruct (JS.falsy (login_email b) || JS.falsy (login_password b)); cbn;
    [other_answer |].
  destruct (Db.selectUserByEmail (login_email b) (db w)) as [u | ?] eqn:Hsel; cbn;
    [| other_answer].
  destruct (bcrypt_verify P (login_password b) (User.passwordHash u)) eqn:Hpw; cbn;
    [| other_answer].
  destruct (importKey_HMAC (JS.TextEncoder_encode (env w "JWT_SECRET"))) as [key |] eqn:Hkey;
    cbn; [| other_answer].
  apply importKey_HMAC_some in Hkey as ->.
  intros H. injection H as <- <- <-.
  exists b, u. repeat split; assumption.
Qed.

(** A login that fails on the email or on the password: its answer, and the
    store it leaves. *)
Lemma login_rejected (w : World) (req : Request LoginRequest) (b : LoginRequest) :
  posted req b -> filled b ->
  (noAccountWithEmail (login_email b) (db w)
   \/ exists u, Db.selectUserByEmail (login_email b) (db w) = DbOk u
                /\ bcrypt_verify P (login_password b) (User.passwordHash u) = false) ->
  let o := run P (login req) w in
  result o = Some (errorResponse 401 "Invalid email or password")
  /\ db (final o) = db w.
Proof.
  intros [Hm Hj] [Hfe Hfp] Hcase. unfold run, login. rewrite Hm, Hj. cbn.
  rewrite Hfe, Hfp. cbn.
  destruct Hcase as [Hnone | (u & Hsel & Hpw)].
  - rewrite (selectUserByEmail_none _ _ Hnone). cbn. auto.
  - rewrite Hsel. cbn. rewrite Hpw. cbn. auto.
Qed.

(** C10. A login with an email no row holds and a login with a registered
    email whose password bcrypt rejects get the same answer, 401 'Invalid
    email or password', whatever the two requests and the two stores are. *)
Theorem failed_logins_look_alike (w1 w2 : World) (req1 req2 : Request LoginRequest)
    (b1 b2 : LoginRequest) (u : User.t) :
  posted req1 b1 -> filled b1 -> noAccountWithEmail (login_email b1) (db w1) ->
  posted req2 b2 -> filled b2 ->
  Db.selectUserByEmail (login_email b2) (db w2) = DbOk u ->
  bcrypt_verify P (login_password b2) (User.passwordHash u) = false ->
  result (run P (login req1) w1) = result (run P (login req2) w2)
  /\ result (run P (login req1) w1) = Some (errorResponse 401 "Invalid email or password").
Proof.
  intros Hp1 Hf1 Hnone Hp2 Hf2 Hsel Hpw.
  destruct (login_rejected w1 req1 b1 Hp1 Hf1 (or_introl Hnone)) as [H1 _].
  destruct (login_rejected w2 req2 b2 Hp2 Hf2
              (or_intror (ex_intro _ u (conj Hsel Hpw)))) as [H2 _].
  rewrite H1, H2. auto.
Qed.

(** The answer to a request does not tell a store where the email is held by
    no row from one where it is and the password is wrong, whatever the
    request. *)
Lemma login_answer_hides_existence (w1 w2 : World) (req : Request LoginRequest) :
  (forall b, json req = Some b ->
     noAccountWithEmail (login_email b) (db w1)
     /\ exists u, Db.selectUserByEmail (login_email b) (db w2) = DbOk u
                  /\ bcrypt_verify P (login_password b) (User.passwordHash u) = false) ->
  result (run P (login req) w1) = result (run P (login req) w2).
Proof.
  intros H. unfold run, login.
  destruct (method req =? "OPTIONS")%string; cbn; [reflexivity |].
  destruct (json req) as [b |]; cbn; [| reflexivity].
  destruct (H b eq_refl) as (Hnone & u & Hsel & Hpw).
  destruct (JS.falsy (login_email b) || JS.falsy (login_password b)); cbn;
    [reflexivity |].
  rewrite (selectUserByEmail_none _ _ Hnone), Hsel. cbn. now rewrite Hpw.
Qed.

Lemma updateUpdatedAt_frame (id : Uuid) (ts : string) (users : list User.t) :
  Forall2 (fun u u' =>
             sameButUpdatedAt u u'
             /\ (User.id u <> id -> u' = u)
             /\ (User.id u = id -> User.updatedAt u' = ts))
          users
          (map (fun u => if N.eqb (User.id u) id then User.set_updatedAt ts u else u) users).
Proof.
  induction users as [| u l IH]; constructor; [| exact IH].
  destruct (N.eqb_spec (User.id u) id) as [E | E].
  - repeat split; try reflexivity. intros H. contradiction.
  - repeat split; try reflexivity. intros H. contradiction.
Qed.

(** C8. A successful login leaves every row of "User" as it was but for
    updatedAt; rows of other accounts are untouched, the row of the account
    gets the instant of the handler's clock, and "Video" is untouched.  A
    login that fails on the email or on the password leaves the store as it
    was. *)
Theorem login_frame (w : World) (req : Request LoginRequest) :
  let o := run P (login req) w in
  (forall message token pub,
     result o = Some (mkResponse 200 (LoggedIn message token pub)) ->
     Forall2 (fun u u' =>
                sameButUpdatedAt u u'
                /\ (User.id u <> User.p_id pub -> u' = u)
                /\ (User.id u = User.p_id pub ->
                    User.updatedAt u'
                    = JS.toISOString (clock w (S (S (clock_reads w))))))
             (Db.users (db w)) (Db.users (db (final o)))
     /\ Db.videos (db (final o)) = Db.videos (db w))
  /\ (forall b, posted req b -> filled b ->
        (noAccountWithEmail (login_email b) (db w)
         \/ exists u, Db.selectUserByEmail (login_email b) (db w) = DbOk u
                      /\ bcrypt_verify P (login_password b) (User.passwordHash u) = false) ->
        db (final o) = db w).
Proof.
  intros o. split.
  - intros message token pub H.
    destruct (login_succeeded w req message token pub H)
      as (b & u & _ & _ & _ & -> & _ & Hdb).
    subst o. rewrite Hdb. split; [| reflexivity].
    apply updateUpdatedAt_frame.
  - intros b Hp Hf Hcase. now destruct (login_rejected w req b Hp Hf Hcase).
Qed.

End Login.

(** ** The modules that load, and the one that does not *)

Lemma existsb_eqb_In (name : string) (seen : list string) :
  existsb (String.eqb name) seen = true <-> In name seen.
Proof.
  rewrite existsb_exists. split.
  - intros (x & Hx & E). apply String.eqb_eq in E. now subst x.
  - intros H. exists name. split; [assumption | apply String.eqb_refl].
Qed.

(** [redeclared] finds nothing exactly when the names of the statement list
    are pairwise distinct, and distinct from those seen before. *)
Lemma redeclared_none (seen : list string) (block : Block) :
  redeclared seen block = None
  <-> NoDup (map snd block) /\ forall name, In name (map snd block) -> ~ In name seen.
Proof.
  revert seen. induction block as [| [line name] rest IH]; intros seen; cbn [redeclared map snd].
  - split; [intros _; split; [constructor | intros name []] | reflexivity].
  - destruct (existsb (String.eqb name) seen) eqn:E.
    + apply existsb_eqb_In in E. split; [discriminate |].
      intros [_ H]. exfalso. apply (H name); [now left | assumption].
    + assert (Hname : ~ In name seen).
      { intros H. apply existsb_eqb_In in H. rewrite H in E. discriminate E. }
      rewrite IH. split.
      * intros [Hnd H]. split.
        -- constructor; [| assumption]. intros Hin. apply (H name Hin). now left.
        -- intros n [<- | Hin]; [assumption |]. intros Hs. apply (H n Hin). now right.
      * intros [Hnd H]. inversion Hnd as [| ? ? Hnotin Hnd']; subst. split; [assumption |].
        intros n Hin [<- | Hs]; [contradiction |]. apply (H n); [now right | assumption].
Qed.

(** A module has no early error exactly when no statement list of it
    declares a name twice. *)
Lemma earlyError_none (blocks : list Block) :
  earlyError blocks = None <-> Forall (fun block => NoDup (map snd block)) blocks.
Proof.
  induction blocks as [| block rest IH]; cbn [earlyError].
  - split; [constructor | reflexivity].
  - destruct (redeclared [] block) eqn:E.
    + split; [discriminate |]. intros H. inversion H as [| ? ? Hnd _]; subst.
      assert (Hnone : redeclared [] block = None)
        by (apply redeclared_none; split; [assumption | intros ? _ []]).
      rewrite Hnone in E. discriminate E.
    + apply redeclared_none in E as [Hnd _]. rewrite IH. split.
      * intros H. now constructor.
      * intros H. now inversion H.
Qed.

Lemma register_loads : deployed register_declarations register = Some register.
Proof. reflexivity. Qed.

Lemma login_loads : deployed login_declarations login = Some login.
Proof. reflexivity. Qed.

(** The module of upload-video-metadata is rejected at its second
    [const key]. *)
Lemma upload_video_metadata_early_error :
  earlyError upload_video_metadata_declarations = Some (119%nat, "key").
Proof. reflexivity. Qed.

(** Whatever handler the text of upload-video-metadata describes, it is not
    served, and no request is answered by it. *)
Lemma upload_video_metadata_not_served {B} (P : Platform)
    (handler : Request B -> Prog Response) (req : Request B) (w : World) :
  respond P (deployed upload_video_metadata_declarations handler) req w = None.
Proof. reflexivity. Qed.

(** ** The flows on the small platform *)

Import Scenario.

(** Scenario A: the registration succeeds and answers an address of 40 hex
    digits after [0x]. *)
Example scenario_registered :
  result registered
  = Some (mkResponse 201
      (Registered "User registered successfully"
         (User.mkPublic 1%N "a@x.com" "0x737a81888f969da4abb2b9c0c7ced5dc737a8188"
            "0x737a81888f969da4abb2b9c0c7ced5dc737a8188" "2024-01-01T00:00:00.037Z"))).
Proof. vm_compute. reflexivity. Qed.

Example scenario_loggedIn :
  result loggedIn
  = Some (mkResponse 200 (LoggedIn "Login successful" token (User.to_public account))).
Proof. vm_compute. reflexivity. Qed.

(** *** The signing calls of the scenario

    The account is registered and logged in, and the browser sends what
    videoApi.uploadMetadata sends: the token as a bearer, and the video URL,
    the title and the password. *)

(** C1, on the code.  The registration of the scenario stored the bundle of
    the account, and the expressions of the text of the signing flow,
    evaluated on the stored columns with the password of the registration,
    give the private key of the wallet back: the hex decoding of lines
    106-108, PBKDF2 and AES-GCM decryption of lines 111-141, and the
    TextDecoder of line 142.  No signing call evaluates them: the module is
    rejected at the second [const key], so whatever handler its text
    describes, the signing call of the scenario gets no answer from the
    function and no key is unwrapped. *)
Theorem wrapped_key_is_never_unwrapped
    (handler : Request UploadVideoMetadataRequest -> Prog Response) :
  option_map status (result registered) = Some 201
  /\ bundleDecodes account salt iv ciphertext
  /\ unwrapped Toy.platform (password clip) salt iv ciphertext
     = Some (JS.TextEncoder_encode (privateKey wallet))
  /\ JS.TextDecoder_decode (JS.TextEncoder_encode (privateKey wallet))
     = Some (privateKey wallet)
  /\ earlyError upload_video_metadata_declarations = Some (119%nat, "key")
  /\ respond Toy.platform (deployed upload_video_metadata_declarations handler)
       (signing clip) w2 = None.
Proof.
  split; [vm_compute; reflexivity |].
  split; [repeat split; vm_compute; reflexivity |].
  split; [vm_compute; reflexivity |].
  split; [apply TextDecoder_TextEncoder |].
  split; [reflexivity | apply upload_video_metadata_not_served].
Qed.


(** C3, on the code.  The signing call of the scenario under another password
    than the account's: AES-GCM decryption of the stored bundle under the key
    of that password fails, but the call is not answered 401 'Invalid
    password': the function is not served, and the call gets no answer from
    it. *)
Theorem wrong_password_is_not_answered
    (handler : Request UploadVideoMetadataRequest -> Prog Response) :
  result loggedIn
  = Some (mkResponse 200 (LoggedIn "Login successful" token (User.to_public account)))
  /\ bundleDecodes account salt iv ciphertext
  /\ unwrapped Toy.platform (password wrongPassword) salt iv ciphertext = None
  /\ respond Toy.platform (deployed upload_video_metadata_declarations handler)
       (signing wrongPassword) w2 = None.
Proof.
  split; [vm_compute; reflexivity |].
  split; [repeat split; vm_compute; reflexivity |].
  split; [vm_compute; reflexivity | apply upload_video_metadata_not_served].
Qed.

(** C6, on the code.  The signing call of the scenario once the walletAddress
    of the row has been overwritten: the bundle still unwraps to the private
    key, the wallet made of it has another address than the row, but the call
    is not answered 500 'Wallet address mismatch': the function is not served,
    and the call gets no answer from it. *)
Theorem address_mismatch_is_not_answered
    (handler : Request UploadVideoMetadataRequest -> Prog Response) :
  Db.selectUserById (Jwt.sub payload) (db w2corrupted) = DbOk corrupted
  /\ bundleDecodes corrupted salt iv ciphertext
  /\ unwrapped Toy.platform (password clip) salt iv ciphertext
     = Some (JS.TextEncoder_encode (privateKey wallet))
  /\ Wallet_new Toy.platform (privateKey wallet) = Some wallet
  /\ address wallet <> User.walletAddress corrupted
  /\ respond Toy.platform (deployed upload_video_metadata_declarations handler)
       (signing clip) w2corrupted = None.
Proof.
  split; [vm_compute; reflexivity |].
  split; [repeat split; vm_compute; reflexivity |].
  split; [vm_compute; reflexivity |].
  split; [vm_compute; reflexivity |].
  split; [vm_compute; discriminate | apply upload_video_metadata_not_served].
Qed.

(** C7, on the code.  The token of the scenario is the one login made: djwt's
    [create] under HS256 and the key imported from JWT_SECRET, with iat the
    reading of the clock and exp seven days later.  It is never verified: the
    function that would verify it is not served, so the signing call that
    presents the token gets no answer from it before the expiry, none eight
    days later in place of a 401, and none when a character has been added to
    the token. *)
Theorem issued_token_is_never_verified
    (handler : Request UploadVideoMetadataRequest -> Prog Response) :
  result loggedIn
  = Some (mkResponse 200 (LoggedIn "Login successful" token (User.to_public account)))
  /\ token = djwt_create Toy.platform (Jwt.mkHeader "HS256" "JWT") payload
               (JS.TextEncoder_encode (env w1 "JWT_SECRET"))
  /\ Jwt.iat payload = getNumericDate (clock w1 (clock_reads w1))
  /\ Jwt.exp payload = Jwt.iat payload + 7 * 24 * 60 * 60
  /\ respond Toy.platform (deployed upload_video_metadata_declarations handler)
       (signing clip) w2 = None
  /\ respond Toy.platform (deployed upload_video_metadata_declarations handler)
       (signing clip) w2expired = None
  /\ respond Toy.platform (deployed upload_video_metadata_declarations handler)
       (post (Some ("Bearer " ++ token ++ "x")) clip) w2 = None.
Proof.
  split; [vm_compute; reflexivity |].
  split; [reflexivity |].
  split; [vm_compute; reflexivity |].
  split; [vm_compute; reflexivity |].
  repeat split.
Qed.

(** C9, on the code.  The signing call of the scenario once the row of the
    account has been deleted: the subject of the token matches no row, but the
    call is not answered 404 'User not found': the function is not served, and
    the call gets no answer from it. *)
Theorem unknown_subject_is_not_answered
    (handler : Request UploadVideoMetadataRequest -> Prog Response) :
  result loggedIn
  = Some (mkResponse 200 (LoggedIn "Login successful" token (User.to_public account)))
  /\ Db.selectUserById (Jwt.sub payload) (db w2deleted) = DbErr NotSingleRow
  /\ respond Toy.platform (deployed upload_video_metadata_declarations handler)
       (signing clip) w2deleted = None.
Proof.
  split; [vm_compute; reflexivity |].
  split; [vm_compute; reflexivity | apply upload_video_metadata_not_served].
Qed.

(** C4, on the code. Two registrations of the same email served concurrently,
    each doing its lookup before either inserts: the first is answered 201,
    the second meets the UNIQUE constraint on its insert and is answered
    500 'Failed to create user account'.  Served one after the other, the
    second is answered 409. *)
Theorem concurrent_registration_is_500 :
  let request := register (post None registration) in
  (let '(first, second, w) := interleave Toy.platform [true; false] request request w0 in
   (option_map status first, second, map User.email (Db.users (db w))))
  = (Some 201, Some (errorResponse 500 "Failed to create user account"), ["a@x.com"])
  /\ result (run Toy.platform request w1)
     = Some (errorResponse 409 "User already exists with this email").
Proof. split; vm_compute; reflexivity. Qed.

(** C5, as stated, fails. "a@x.com" is registered; the registration of
    "A@x.com", the same email but for letter case, is not answered 409: it is
    answered 201, and the store then holds both. *)
Lemma email_case_counterexample :
  (exists u, In u (Db.users (db w1))
             /\ sameIgnoringCase (User.email u) (reg_email upperCase) = true)
  /\ result registeredUpperCase
     <> Some (errorResponse 409 "User already exists with this email")
  /\ option_map status (result registeredUpperCase) = Some 201
  /\ map User.email (Db.users (db (final registeredUpperCase))) = ["a@x.com"; "A@x.com"].
Proof.
  split; [| split; [| split]].
  - exists stored. split; [vm_compute; now left | vm_compute; reflexivity].
  - vm_compute. discriminate.
  - vm_compute. reflexivity.
  - vm_compute. reflexivity.
Qed.

(** ** The theorems at work on the scenario *)

(** A request made with [post] is posted. *)
Lemma here {B} (auth : option string) (b : B) : posted (post auth b) b.
Proof. split; reflexivity. Defined.

(** Registering "a@x.com" a second time. *)
Lemma email_taken_is_exact_match_witness :
  result (run Toy.platform (register (post None registration)) w1)
  = Some (errorResponse 409 "User already exists with this email").
Proof.
  apply (proj1 (email_taken_is_exact_match Toy.platform w1 (post None registration)
                  registration (here None registration)) stored).
  - repeat split.
  - vm_compute. constructor; [intros [] | constructor].
  - vm_compute. now left.
  - vm_compute. reflexivity.
Defined.

(** A login before any registration, and a login with a wrong password after
    it. *)
Lemma failed_logins_look_alike_witness :
  result (run Toy.platform (login (post None credentials)) w0)
  = result (run Toy.platform (login (post None (mkLoginRequest "a@x.com" "Abcd12345"))) w1).
Proof.
  apply (failed_logins_look_alike Toy.platform w0 w1 (post None credentials)
           (post None (mkLoginRequest "a@x.com" "Abcd12345"))
           credentials (mkLoginRequest "a@x.com" "Abcd12345") stored).
  - apply here.
  - split; reflexivity.
  - intros u Hu. vm_compute in Hu. contradiction.
  - apply here.
  - split; reflexivity.
  - vm_compute. reflexivity.
  - vm_compute. reflexivity.
Defined.

(** The login of the scenario, on the stores before and after it. *)
Lemma login_frame_witness :
  Forall2 (fun u u' =>
             sameButUpdatedAt u u'
             /\ (User.id u <> 1%N -> u' = u)
             /\ (User.id u = 1%N -> User.updatedAt u' = "2024-01-01T00:00:00.002Z"))
          (Db.users (db w1)) (Db.users (db w2))
  /\ Db.videos (db w2) = Db.videos (db w1).
Proof.
  apply (proj1 (login_frame Toy.platform w1 (post None credentials))
           "Login successful" token (User.to_public account)).
  vm_compute. reflexivity.
Defined.

(** * Further properties *)

(** ** The constraints of the schema *)

Lemma violatesUnique_false (i : User.insert) (d : Db.t) :
  Db.violatesUnique i d = false ->
  ~ In (User.i_email i) (map User.email (Db.users d))
  /\ ~ In (User.i_username i) (map User.username (Db.users d))
  /\ ~ In (User.i_walletAddress i) (map User.walletAddress (Db.users d)).
Proof.
  unfold Db.violatesUnique. intros H.
  assert (Hall : forall u, In u (Db.users d) ->
            User.email u <> User.i_email i /\ User.username u <> User.i_username i
            /\ User.walletAddress u <> User.i_walletAddress i).
  { intros u Hu.
    destruct (String.eqb_spec (User.email u) (User.i_email i)) as [E1 | E1];
      destruct (String.eqb_spec (User.username u) (User.i_username i)) as [E2 | E2];
      destruct (String.eqb_spec (User.walletAddress u) (User.i_walletAddress i)) as [E3 | E3];
      try (repeat split; assumption);
      exfalso;
      (assert (Hex : existsb (fun u =>
           String.eqb (User.email u) (User.i_email i)
           || String.eqb (User.username u) (User.i_username i)
           || String.eqb (User.walletAddress u) (User.i_walletAddress i)) (Db.users d) = true)
        by (apply existsb_exists; exists u; split; [assumption |];
            rewrite ?E1, ?E2, ?E3, ?String.eqb_refl, ?orb_true_r; reflexivity));
      rewrite Hex in H; discriminate. }
  repeat split; intros Hin; apply in_map_iff in Hin as (u & Heq & Hu);
    destruct (Hall u Hu) as (H1 & H2 & H3); congruence.
Qed.

Lemma updateUpdatedAt_columns (id : Uuid) (ts : string) (users : list User.t) :
  let users' :=
    map (fun u => if N.eqb (User.id u) id then User.set_updatedAt ts u else u) users in
  map User.id users' = map User.id users
  /\ map User.email users' = map User.email users
  /\ map User.username users' = map User.username users
  /\ map User.walletAddress users' = map User.walletAddress users.
Proof.
  induction users as [| u l IH]; [repeat split |].
  destruct IH as (H1 & H2 & H3 & H4). cbn [map] in *.
  rewrite H1, H2, H3, H4.
  destruct (N.eqb (User.id u) id); repeat split.
Qed.

(** ** The answers of the handlers *)

(** An answer other than the one that comes with a write, and no write. *)
Ltac store_untouched :=
  let H := fresh in
  intros H; injection H as <-; cbn; split; [reflexivity | intros; discriminate].

Section Answers.

Variable P : Platform.

(** X2. Every request to register and to login gets an answer: no run of
    either handler ends in an uncaught exception, and the status is one of
    those the function can give: 200, 201, 400, 409, 500 for register;
    200, 400, 401, 500 for login. *)
Theorem every_request_is_answered (s : Served) (w : World) :
  exists r, result (run P (serve s) w) = Some r
    /\ In (status r)
          match s with
          | ToRegister _ => [200; 201; 400; 409; 500]
          | ToLogin _ => [200; 400; 401; 500]
          end.
Proof.
  destruct s as [req | req]; cbn [serve];
    unfold run, register, login; paths;
    (eexists; split; [reflexivity | cbn; tauto]).
Qed.

(** X3. A CORS preflight is answered 200 'ok' by register and by login before
    anything else: no header or body is read, no call is made, and the world
    is left as it was. *)
Theorem preflight_is_answered_first (s : Served) (w : World) :
  servedMethod s = "OPTIONS" ->
  run P (serve s) w = mkOutcome (Some (mkResponse 200 (Text "ok"))) w [].
Proof.
  destruct s as [req | req]; cbn [serve servedMethod]; intros H;
    unfold run, register, login; rewrite H; reflexivity.
Qed.

(** X4. A registration whose body fails a check is answered 400, with the
    message of the first check it fails (presence, then email format, then
    password length), before any call: no lookup, no hash, no wallet, and the
    world is left as it was. *)
Theorem register_rejects_bad_input (w : World) (req : Request RegisterRequest)
    (b : RegisterRequest) :
  posted req b -> ~ acceptable b ->
  run P (register req) w
  = mkOutcome
      (Some (errorResponse 400
         (if JS.falsy (reg_email b) || JS.falsy (reg_password b)
          then "Email and password are required"
          else if negb (JS.emailRegex_test (reg_email b))
          then "Invalid email format"
          else "Password must be at least 8 characters long")))
      w [].
Proof.
  intros [Hm Hj] Hbad. unfold run, register. rewrite Hm, Hj. cbn.
  destruct (JS.falsy (reg_email b)) eqn:He; cbn; [reflexivity |].
  destruct (JS.falsy (reg_password b)) eqn:Hp; cbn; [reflexivity |].
  destruct (JS.emailRegex_test (reg_email b)) eqn:Hr; cbn; [| reflexivity].
  destruct (String.length (reg_password b) <? 8)%nat eqn:Hl; cbn; [reflexivity |].
  exfalso. apply Hbad. repeat split; assumption.
Qed.

(** X5. Registration changes the store only when it answers 201, and then by
    one new row of "User" and nothing else: the row takes the next id and the
    database clock for both timestamps, its username is its wallet address,
    and the answer shows its public columns. *)
Theorem register_adds_one_row_or_nothing (w : World) (req : Request RegisterRequest)
    (r : Response) :
  let o := run P (register req) w in
  result o = Some r ->
  (status r <> 201 -> db (final o) = db w)
  /\ (status r = 201 ->
      exists u,
        r = mkResponse 201 (Registered "User registered successfully" (User.to_public u))
        /\ db (final o)
           = Db.mk (Db.users (db w) ++ [u]) (Db.videos (db w))
                   (N.succ (Db.next_uuid (db w))) (Db.now (db w))
        /\ User.id u = Db.next_uuid (db w)
        /\ User.username u = User.walletAddress u
        /\ User.createdAt u = JS.toISOString (Db.now (db w))
        /\ User.updatedAt u = JS.toISOString (Db.now (db w))).
Proof.
  intros o. subst o. unfold run, register.
  destruct (method req =? "OPTIONS")%string; cbn; [store_untouched |].
  destruct (json req) as [b |]; cbn; [| store_untouched].
  destruct (JS.falsy (reg_email b) || JS.falsy (reg_password b)); cbn;
    [store_untouched |].
  destruct (negb (JS.emailRegex_test (reg_email b))); cbn; [store_untouched |].
  destruct (String.length (reg_password b) <? 8)%nat; cbn; [store_untouched |].
  destruct (Db.selectUserByEmail (reg_email b) (db w)); cbn; [store_untouched |].
  match goal with |- context [Db.insertUser ?row ?d] =>
    unfold Db.insertUser; destruct (Db.violatesUnique row d) end;
    cbn; [store_untouched |].
  intros H. injection H as <-. split; [intros H; now contradiction H |].
  intros _. eexists. repeat split.
Qed.

End Answers.

(** An answer without a token, after no write and no token made. *)
Ltac no_token :=
  let H := fresh in
  intros H; injection H as <-; split;
  [ intros ? ? ? H; cbv beta delta [preflight errorResponse] in H; discriminate H
  | intros _; split; [reflexivity |];
    cbn; intros c Hc;
    repeat (destruct Hc as [<- | Hc]; [reflexivity |]); contradiction ].

Section Effects.

Variable P : Platform.

(** X8. Login gives out a token only to one who knows the password: an answer
    that carries a token means that exactly one row holds the email of the
    request, that bcrypt accepted the password of the request against the hash
    in that row, and that the token was made for that row's id, email and
    wallet address; every other answer leaves the store as it was and no token
    has been created on the way. *)
Theorem login_grants_token_on_bcrypt_only (w : World) (req : Request LoginRequest)
    (r : Response) :
  let o := run P (login req) w in
  result o = Some r ->
  (forall message token pub, r = mkResponse 200 (LoggedIn message token pub) ->
     exists b u payload key,
       posted req b
       /\ filter (fun u => String.eqb (User.email u) (login_email b)) (Db.users (db w)) = [u]
       /\ bcrypt_verify P (login_password b) (User.passwordHash u) = true
       /\ pub = User.to_public u
       /\ Jwt.sub payload = User.id u /\ Jwt.email payload = User.email u
       /\ Jwt.walletAddress payload = User.walletAddress u
       /\ token = djwt_create P (Jwt.mkHeader "HS256" "JWT") payload key)
  /\ ((forall message token pub, r <> mkResponse 200 (LoggedIn message token pub)) ->
      db (final o) = db w /\ forall c, In c (trace o) -> createdToken c = None).
Proof.
  intros o. subst o. unfold run, login.
  assert (Hsingle : forall email u,
            Db.selectUserByEmail email (db w) = DbOk u ->
            filter (fun u => String.eqb (User.email u) email) (Db.users (db w)) = [u]).
  { intros email u. unfold Db.selectUserByEmail, Db.single.
    destruct (filter _ _) as [| x [| y l]]; intros H; try discriminate.
    now injection H as ->. }
  destruct (method req =? "OPTIONS")%string eqn:Hm; cbn; [no_token |].
  destruct (json req) as [b |] eqn:Hj; cbn; [| no_token].
  destruct (JS.falsy (login_email b) || JS.falsy (login_password b)); cbn; [no_token |].
  destruct (Db.selectUserByEmail (login_email b) (db w)) as [u |] eqn:Hsel; cbn;
    [| no_token].
  destruct (bcrypt_verify P (login_password b) (User.passwordHash u)) eqn:Hpw; cbn;
    [| no_token].
  destruct (importKey_HMAC (JS.TextEncoder_encode (env w "JWT_SECRET"))) as [key |];
    cbn; [| no_token].
  intros H. injection H as <-. split.
  - intros message token pub H. injection H as _ <- <-.
    eexists b, u, _, _. repeat split; try reflexivity; try assumption.
    now apply Hsingle.
  - intros H. exfalso. eapply H. reflexivity.
Qed.

End Effects.

(** ** The signed message *)

Lemma lineFeeds_app (a b : string) : lineFeeds (a ++ b) = (lineFeeds a + lineFeeds b)%nat.
Proof. induction a as [| c a IH]; cbn; [reflexivity | rewrite IH; lia]. Qed.

Lemma first_lineFeed (a a' r r' : string) :
  lineFeeds a = 0%nat -> lineFeeds a' = 0%nat ->
  a ++ String "010" r = a' ++ String "010" r' -> a = a' /\ r = r'.
Proof.
  revert a'. induction a as [| c a IH]; intros [| c' a'] Ha Ha' H; cbn in *.
  - now injection H.
  - injection H as <- _. cbn in Ha'. discriminate.
  - injection H as -> _. cbn in Ha. discriminate.
  - injection H as <- H.
    destruct (Ascii.eqb c "010"); [discriminate |].
    destruct (IH a' Ha Ha' H) as [-> ->]. now split.
Qed.

Lemma lineFeeds_digits (n : nat) (z : Z) : lineFeeds (JS.digits n z) = 0%nat.
Proof.
  revert z. induction n as [| n IH]; intros z; cbn; [reflexivity |].
  rewrite lineFeeds_app, IH. cbn.
  assert (H : 0 <= z mod 10 < 10) by (apply Z.mod_pos_bound; lia).
  assert (Hcases : z mod 10 = 0 \/ z mod 10 = 1 \/ z mod 10 = 2 \/ z mod 10 = 3
                   \/ z mod 10 = 4 \/ z mod 10 = 5 \/ z mod 10 = 6 \/ z mod 10 = 7
                   \/ z mod 10 = 8 \/ z mod 10 = 9) by lia.
  repeat (destruct Hcases as [-> | Hcases]; [reflexivity |]). now rewrite Hcases.
Qed.

Lemma lineFeeds_toISOString (t : Z) : lineFeeds (JS.toISOString t) = 0%nat.
Proof.
  unfold JS.toISOString.
  destruct (JS.civil_from_days (t / 86400000)) as [[y m] d].
  destruct ((0 <=? y) && (y <=? 9999)); [| destruct (y <? 0)];
    rewrite ?lineFeeds_app, ?lineFeeds_digits; reflexivity.
Qed.

(** X9. The message the signing flow signs for a URL and a title without line
    feed, at any reading of its clock, is the message of no other URL, title
    and timestamp: a signature over it speaks for this URL and this title
    alone. *)
Theorem signed_message_is_unambiguous (videoUrl title : string) (now : Z)
    (videoUrl' title' timestamp' : string) :
  lineFeeds videoUrl = 0%nat -> lineFeeds title = 0%nat ->
  uploadMessage videoUrl title (JS.toISOString now)
  = uploadMessage videoUrl' title' timestamp' ->
  videoUrl' = videoUrl /\ title' = title /\ timestamp' = JS.toISOString now.
Proof.
  intros Hu Ht H.
  assert (Hcount : (lineFeeds videoUrl' + lineFeeds title' + lineFeeds timestamp' = 0)%nat).
  { apply (f_equal lineFeeds) in H. unfold uploadMessage, LF in H.
    rewrite !lineFeeds_app, Hu, Ht, lineFeeds_toISOString in H. cbn in H. lia. }
  unfold uploadMessage, LF in H. cbn in H.
  repeat (injection H as H).
  apply first_lineFeed in H as [<- H]; [| assumption | lia].
  cbn in H. repeat (injection H as H).
  apply first_lineFeed in H as [<- H]; [| assumption | lia].
  cbn in H. repeat (injection H as H). now subst.
Qed.

(** With a line feed in the URL, two different pairs of URL and title share a
    message. *)
Example signed_message_with_line_feed :
  uploadMessage ("a" ++ LF ++ "Title: b") "c" "t" = uploadMessage "a" ("b" ++ LF ++ "Title: c") "t".
Proof. reflexivity. Qed.

(** ** One flow after another *)

Section Composition.

Variable P : Platform.

(** A registration answered 201: the body it had, and the world it leaves. *)
Lemma register_outcome (w : World) (req : Request RegisterRequest)
    (message : string) (pub : User.public) :
  let o := run P (register req) w in
  result o = Some (mkResponse 201 (Registered message pub)) ->
  exists b,
    posted req b /\ acceptable b
    /\ noAccountWithEmail (reg_email b) (db w)
    /\ pub = User.to_public (registrationRow P w b)
    /\ final o
       = mkWorld (Db.mk (Db.users (db w) ++ [registrationRow P w b]) (Db.videos (db w))
                    (N.succ (Db.next_uuid (db w))) (Db.now (db w)))
                 (clock w) (clock_reads w) (entropy w)
                 (entropy_used w + 16 + 16 + 32 + 12) (env w).
Proof.
  intros o. subst o. unfold run, register.
  destruct (method req =? "OPTIONS")%string eqn:Hm; cbn; [other_answer |].
  destruct (json req) as [b |] eqn:Hj; cbn; [| other_answer].
  destruct (JS.falsy (reg_email b)) eqn:Hfe; cbn; [other_answer |].
  destruct (JS.falsy (reg_password b)) eqn:Hfp; cbn; [other_answer |].
  destruct (JS.emailRegex_test (reg_email b)) eqn:Hre; cbn; [| other_answer].
  destruct (String.length (reg_password b) <? 8)%nat eqn:Hlen; cbn; [other_answer |].
  destruct (Db.selectUserByEmail (reg_email b) (db w)) as [? | ?] eqn:Hsel; cbn;
    [other_answer |].
  match goal with |- context [Db.insertUser ?row ?d] =>
    unfold Db.insertUser; destruct (Db.violatesUnique row d) eqn:Hv end;
    cbn; [other_answer |].
  intros H. injection H as <- <-.
  exists b. repeat split; try assumption.
  destruct (violatesUnique_false _ _ Hv) as (He & _ & _). cbn in He.
  intros u Hu Heq. apply He. rewrite <- Heq. now apply in_map.
Qed.

Lemma filter_snoc_only {A} (f : A -> bool) (l : list A) (a : A) :
  (forall x, In x l -> f x = false) -> f a = true -> filter f (l ++ [a]) = [a].
Proof.
  intros Hl Ha. rewrite filter_app, (filter_none f l Hl). cbn. now rewrite Ha.
Qed.

(** X10. Once an email is registered it is taken: after a registration
    answered 201, a further registration of the same email, with any
    acceptable password, is answered 409 and stores nothing. *)
Theorem registered_email_is_taken (w : World) (req req' : Request RegisterRequest)
    (b b' : RegisterRequest) (message : string) (pub : User.public) :
  json req = Some b ->
  result (run P (register req) w) = Some (mkResponse 201 (Registered message pub)) ->
  posted req' b' -> acceptable b' -> reg_email b' = reg_email b ->
  let w1 := final (run P (register req) w) in
  let o := run P (register req') w1 in
  result o = Some (errorResponse 409 "User already exists with this email")
  /\ db (final o) = db w1.
Proof.
  intros Hj H [Hm' Hj'] (Hfe & Hfp & Hre & Hlen) Heq w1 o.
  destruct (register_outcome w req message pub H)
    as (b0 & [_ Hj0] & _ & Hfresh & _ & Hfinal).
  rewrite Hj in Hj0. injection Hj0 as <-.
  subst o w1. rewrite Hfinal.
  unfold run, register. rewrite Hm', Hj'. cbn.
  rewrite Hfe, Hfp, Hre, Hlen. cbn.
  unfold Db.selectUserByEmail. cbn [Db.users].
  rewrite filter_snoc_only.
  - cbn. split; reflexivity.
  - intros u Hu. apply String.eqb_neq. rewrite Heq. now apply Hfresh.
  - cbn. rewrite Heq. apply String.eqb_refl.
Qed.

(** A login with the right password, where JWT_SECRET is set: its answer, and
    the world it leaves. *)
Lemma login_accepts (w : World) (req : Request LoginRequest) (b : LoginRequest)
    (u : User.t) :
  posted req b -> filled b ->
  Db.selectUserByEmail (login_email b) (db w) = DbOk u ->
  bcrypt_verify P (login_password b) (User.passwordHash u) = true ->
  JS.falsy (env w "JWT_SECRET") = false ->
  let o := run P (login req) w in
  let payload :=
    Jwt.mkPayload (User.id u) (User.email u) (User.walletAddress u)
      (getNumericDate (clock w (clock_reads w)))
      (getNumericDate (clock w (S (clock_reads w)) + sevenDays)) in
  result o
  = Some (mkResponse 200
      (LoggedIn "Login successful"
         (djwt_create P (Jwt.mkHeader "HS256" "JWT") payload
            (JS.TextEncoder_encode (env w "JWT_SECRET")))
         (User.to_public u)))
  /\ final o
     = mkWorld (Db.updateUpdatedAt (User.id u)
                  (JS.toISOString (clock w (S (S (clock_reads w))))) (db w))
               (clock w) (S (S (S (clock_reads w)))) (entropy w) (entropy_used w) (env w).
Proof.
  intros [Hm Hj] [Hfe Hfp] Hsel Hpw Hsecret. unfold run, login. rewrite Hm, Hj. cbn.
  rewrite Hfe, Hfp. cbn. rewrite Hsel. cbn. rewrite Hpw. cbn.
  rewrite (importKey_HMAC_secret _ Hsecret). cbn. split; reflexivity.
Qed.

(** X11. A token login creates never expires sooner than 7 days after its
    iat, as long as the clock does not run backwards between the two readings
    login makes of it; when the two readings agree, exp is iat plus 7 days to
    the second. *)
Theorem token_lives_seven_days (w : World) (req : Request LoginRequest) (c : Call)
    (header : Jwt.Header) (payload : Jwt.Payload) (key : list byte) (token : string) :
  In c (trace (run P (login req) w)) ->
  createdToken c = Some (header, payload, key, token) ->
  let issued := clock w (clock_reads w) in
  let now := clock w (S (clock_reads w)) in
  (issued <= now -> Jwt.iat payload + 7 * 24 * 60 * 60 <= Jwt.exp payload)
  /\ (issued = now -> Jwt.exp payload = Jwt.iat payload + 7 * 24 * 60 * 60).
Proof.
  unfold run, login. paths; intros Hc Hcreated;
    repeat (destruct Hc as [<- | Hc]; try discriminate Hcreated); try contradiction.
  cbn in Hcreated. injection Hcreated as _ <- _ _. cbn [Jwt.iat Jwt.exp].
  rewrite getNumericDate_sevenDays. unfold getNumericDate, JS.round_div_1000.
  split.
  - intros Hle. apply Z.add_le_mono_r. apply Z.div_le_mono; lia.
  - intros ->. reflexivity.
Qed.

(** X12. From registration to login.  Where bcrypt accepts a password against
    the hash it made of it and JWT_SECRET is set, the account a registration
    has just created can log in with the email and the password it registered
    with: login answers 200 with the public columns registration answered
    with and a token made under the key of JWT_SECRET, whose subject, email
    and wallet address are the account's, and it writes updatedAt of the
    account's id and nothing else. *)
Theorem register_then_login (w : World)
    (req : Request RegisterRequest) (b : RegisterRequest)
    (message : string) (pub : User.public)
    (req' : Request LoginRequest) (b' : LoginRequest) :
  bcrypt_correct P ->
  JS.falsy (env w "JWT_SECRET") = false ->
  json req = Some b ->
  result (run P (register req) w) = Some (mkResponse 201 (Registered message pub)) ->
  posted req' b' -> login_email b' = reg_email b -> login_password b' = reg_password b ->
  let w1 := final (run P (register req) w) in
  let o := run P (login req') w1 in
  exists payload,
    result o
    = Some (mkResponse 200
        (LoggedIn "Login successful"
           (djwt_create P (Jwt.mkHeader "HS256" "JWT") payload
              (JS.TextEncoder_encode (env w "JWT_SECRET")))
           pub))
    /\ Jwt.sub payload = User.p_id pub
    /\ Jwt.email payload = reg_email b
    /\ Jwt.walletAddress payload = User.p_walletAddress pub
    /\ db (final o)
       = Db.updateUpdatedAt (User.p_id pub)
           (JS.toISOString (clock w (S (S (clock_reads w))))) (db w1).
Proof.
  intros Hbcrypt Hsecret Hj H [Hm' Hj'] Hemail Hpassword w1 o.
  destruct (register_outcome w req message pub H)
    as (b0 & [_ Hj0] & (Hfe & Hfp & _ & _) & Hfresh & Hpub & Hfinal).
  rewrite Hj in Hj0. injection Hj0 as <-.
  set (row := registrationRow P w b) in *.
  assert (Hdb1 : db w1
                 = Db.mk (Db.users (db w) ++ [row]) (Db.videos (db w))
                         (N.succ (Db.next_uuid (db w))) (Db.now (db w)))
    by (unfold w1; now rewrite Hfinal).
  assert (Hsel : Db.selectUserByEmail (login_email b') (db w1) = DbOk row).
  { rewrite Hdb1. unfold Db.selectUserByEmail. cbn [Db.users].
    rewrite filter_snoc_only; [reflexivity | |].
    - intros u Hu. apply String.eqb_neq. rewrite Hemail. now apply Hfresh.
    - rewrite Hemail. apply String.eqb_refl. }
  assert (Hpw : bcrypt_verify P (login_password b') (User.passwordHash row) = true)
    by (rewrite Hpassword; apply Hbcrypt).
  assert (Hfilled : filled b') by (split; [rewrite Hemail | rewrite Hpassword]; assumption).
  assert (Hw1 : clock w1 = clock w /\ clock_reads w1 = clock_reads w /\ env w1 = env w)
    by (unfold w1; rewrite Hfinal; repeat split).
  destruct Hw1 as (Hclock & Hreads & Henv).
  assert (Hsecret1 : JS.falsy (env w1 "JWT_SECRET") = false) by now rewrite Henv.
  destruct (login_accepts w1 req' b' row (conj Hm' Hj') Hfilled Hsel Hpw Hsecret1)
    as [Hresult Hdb].
  fold o in Hresult, Hdb. rewrite Henv, Hclock, Hreads in Hresult.
  eexists. split; [rewrite Hresult, Hpub; reflexivity |].
  rewrite Hpub. split; [reflexivity |]. split; [reflexivity |]. split; [reflexivity |].
  rewrite Hdb, Hclock, Hreads. reflexivity.
Qed.

End Composition.

(** ** The hex codec and the email check *)

Lemma allChars_app (p : ascii -> bool) (a b : string) :
  allChars p (a ++ b) = allChars p a && allChars p b.
Proof.
  induction a as [| c a IH]; cbn; [reflexivity |]. now rewrite IH, andb_assoc.
Qed.

Lemma toHex_byte_shape (b : byte) :
  String.length (JS.padStart2 (JS.toString16 b)) = 2%nat
  /\ allChars isLowerHexDigit (JS.padStart2 (JS.toString16 b)) = true.
Proof. destruct b; split; reflexivity. Qed.

Lemma string_length_app (a b : string) :
  String.length (a ++ b) = (String.length a + String.length b)%nat.
Proof. induction a as [| c a IH]; cbn; [reflexivity | now rewrite IH]. Qed.

Lemma toHex_length (bs : list byte) :
  String.length (JS.toHex bs) = (2 * List.length bs)%nat.
Proof.
  induction bs as [| b bs IH]; [reflexivity |].
  rewrite toHex_cons, string_length_app, IH.
  destruct (toHex_byte_shape b) as [-> _]. cbn [List.length]. lia.
Qed.

Lemma toHex_lowerHex (bs : list byte) : allChars isLowerHexDigit (JS.toHex bs) = true.
Proof.
  induction bs as [| b bs IH]; [reflexivity |].
  rewrite toHex_cons, allChars_app, IH.
  now destruct (toHex_byte_shape b) as [_ ->].
Qed.

(** X13. The hex text the handlers store for a byte array has two lower-case
    hexadecimal digits per byte, and decoding it as the signing flow does gives
    the array back, except for the empty array: its text is empty, and
    decoding the empty text throws. *)
Theorem hex_codec_round_trip (bs : list byte) :
  String.length (JS.toHex bs) = (2 * List.length bs)%nat
  /\ allChars isLowerHexDigit (JS.toHex bs) = true
  /\ JS.fromHex (JS.toHex bs) = match bs with [] => None | _ :: _ => Some bs end.
Proof.
  split; [apply toHex_length |]. split; [apply toHex_lowerHex |].
  destruct bs as [| b bs]; [reflexivity |]. now apply fromHex_toHex.
Qed.

Lemma match_dot12_line (s : string) :
  allChars (fun c => negb (JS.isLineTerminator c)) s = true ->
  List.length (JS.match_dot12 s) = Nat.div2 (S (String.length s)).
Proof.
  assert (H : forall n s, (String.length s <= n)%nat ->
            allChars (fun c => negb (JS.isLineTerminator c)) s = true ->
            List.length (JS.match_dot12 s) = Nat.div2 (S (String.length s))).
  { clear s. induction n as [| n IH]; intros s Hn Hs.
    - destruct s; [reflexivity | cbn in Hn; lia].
    - destruct s as [| c [| d r]]; [reflexivity | |].
      + cbn in Hs. apply andb_true_iff in Hs as [Hc _].
        apply negb_true_iff in Hc. cbn [JS.match_dot12]. now rewrite Hc.
      + cbn [allChars] in Hs.
        apply andb_true_iff in Hs as [Hc Hs]. apply andb_true_iff in Hs as [Hd Hs].
        apply negb_true_iff in Hc, Hd. cbn [JS.match_dot12]. rewrite Hc, Hd.
        cbn [List.length String.length Nat.div2]. f_equal.
        apply IH; [cbn in Hn; lia | assumption]. }
  intros Hs. now apply (H (String.length s)).
Qed.

Lemma match_dot12_nil (s : string) :
  JS.match_dot12 s = [] <-> allChars JS.isLineTerminator s = true.
Proof.
  induction s as [| c rest IH]; [split; reflexivity |].
  cbn [JS.match_dot12 allChars].
  destruct (JS.isLineTerminator c); cbn [andb]; [exact IH |].
  destruct rest as [| d rest']; [split; discriminate |].
  destruct (JS.isLineTerminator d); split; discriminate.
Qed.

(** X14. Decoding a column never rejects text for not being hexadecimal.  It
    throws on the texts that hold nothing but line terminators, the empty
    text among them, and on no other; a text without line terminators that is
    not empty decodes to one byte per two characters, rounded up, whatever
    the characters are. *)
Theorem fromHex_takes_any_text (s : string) :
  (JS.fromHex s = None <-> allChars JS.isLineTerminator s = true)
  /\ (s <> EmptyString ->
      allChars (fun c => negb (JS.isLineTerminator c)) s = true ->
      exists bs, JS.fromHex s = Some bs
        /\ List.length bs = Nat.div2 (S (String.length s))).
Proof.
  split.
  - rewrite <- match_dot12_nil. unfold JS.fromHex, JS.String_match.
    destruct (JS.match_dot12 s); split; intros H; try reflexivity; discriminate H.
  - intros Hne Hs. pose proof (match_dot12_line s Hs) as Hlen.
    unfold JS.fromHex, JS.String_match.
    destruct (JS.match_dot12 s) as [| chunk chunks] eqn:E.
    + destruct s; [contradiction | cbn in Hlen; destruct (String.length s); discriminate].
    + eexists. split; [reflexivity |]. now rewrite length_map.
Qed.

(** *** The email check of register *)

Lemma splitAt_spec (s loc dom : string) :
  JS.splitAt s = Some (loc, dom) ->
  s = loc ++ String "@" dom /\ allChars (fun c => negb (Ascii.eqb c "@")) loc = true.
Proof.
  revert loc. induction s as [| c s IH]; intros loc H; [discriminate |].
  cbn in H. destruct (Ascii.eqb_spec c "@") as [-> | Hc].
  - injection H as <- <-. now split.
  - destruct (JS.splitAt s) as [[a b] |]; [| discriminate].
    injection H as <- <-. destruct (IH a eq_refl) as [-> Ha].
    split; [reflexivity |]. cbn. rewrite Ha.
    now destruct (Ascii.eqb_spec c "@").
Qed.

Lemma splitAt_first (loc dom : string) :
  JS.allEmailChars loc = true -> JS.splitAt (loc ++ String "@" dom) = Some (loc, dom).
Proof.
  induction loc as [| c loc IH]; intros H; [reflexivity |].
  cbn in H. apply andb_true_iff in H as [Hc Hloc].
  unfold JS.isEmailChar in Hc. apply andb_true_iff in Hc as [_ Hc].
  apply negb_true_iff in Hc. cbn. now rewrite Hc, (IH Hloc).
Qed.

Lemma allEmailChars_app (a b : string) :
  JS.allEmailChars (a ++ b) = JS.allEmailChars a && JS.allEmailChars b.
Proof.
  induction a as [| c a IH]; cbn; [reflexivity |]. now rewrite IH, andb_assoc.
Qed.

Lemma hasInnerDot_spec (s : string) :
  JS.hasInnerDot s = true ->
  exists b c, s = b ++ String "." c /\ b <> EmptyString /\ c <> EmptyString.
Proof.
  assert (H : forall n s, (String.length s <= n)%nat -> JS.hasInnerDot s = true ->
            exists b c, s = b ++ String "." c /\ b <> EmptyString /\ c <> EmptyString).
  { clear s. induction n as [| n IH]; intros s Hn Hs.
    - destruct s; [discriminate | cbn in Hn; lia].
    - destruct s as [| a [| d [| e r]]]; try discriminate.
      cbn [JS.hasInnerDot] in Hs. apply orb_true_iff in Hs as [Hd | Hr].
      + apply Ascii.eqb_eq in Hd as ->.
        exists (String a EmptyString), (String e r). repeat split; discriminate.
      + destruct (IH (String d (String e r))) as (b & c & Heq & Hb & Hc);
          [cbn in *; lia | assumption |].
        exists (String a b), c. rewrite Heq. repeat split; [discriminate | assumption]. }
  intros Hs. now apply (H (String.length s)).
Qed.

Lemma hasInnerDot_intro (b c : string) :
  b <> EmptyString -> c <> EmptyString -> JS.hasInnerDot (b ++ String "." c) = true.
Proof.
  intros Hb Hc. destruct c as [| e c]; [contradiction |]. clear Hc.
  induction b as [| a b IH]; [contradiction |].
  destruct b as [| d b].
  - reflexivity.
  - change (JS.hasInnerDot (String a (String d b ++ String "." (String e c))) = true).
    assert (Hrest : JS.hasInnerDot (String d b ++ String "." (String e c)) = true)
      by (apply IH; discriminate).
    cbn [append] in *. destruct (b ++ String "." (String e c)) eqn:E.
    + destruct b; discriminate.
    + cbn [JS.hasInnerDot]. cbn [JS.hasInnerDot] in Hrest.
      rewrite Hrest. apply orb_true_r.
Qed.

(** X15. The email check of register accepts exactly the texts made of a
    non-empty part, an at sign, a second non-empty part, a dot and a third
    non-empty part, where no part holds white space or an at sign: the reading
    of /^[^\s@]+@[^\s@]+\.[^\s@]+$/. *)
Theorem emailRegex_accepts (s : string) :
  JS.emailRegex_test s = true
  <-> exists a b c,
        s = a ++ "@" ++ b ++ "." ++ c
        /\ a <> EmptyString /\ b <> EmptyString /\ c <> EmptyString
        /\ JS.allEmailChars a = true /\ JS.allEmailChars b = true
        /\ JS.allEmailChars c = true.
Proof.
  unfold JS.emailRegex_test. split.
  - destruct (JS.splitAt s) as [[loc dom] |] eqn:Hsplit; [| discriminate].
    intros H. apply andb_true_iff in H as [H Hdot].
    apply andb_true_iff in H as [H Hdom]. apply andb_true_iff in H as [Hne Hloc].
    destruct (splitAt_spec _ _ _ Hsplit) as [-> _].
    destruct (hasInnerDot_spec dom Hdot) as (b & c & -> & Hb & Hc).
    rewrite allEmailChars_app in Hdom. apply andb_true_iff in Hdom as [Hb' Hc'].
    cbn in Hc'. exists loc, b, c. repeat split; try assumption.
    intros ->. discriminate.
  - intros (a & b & c & -> & Ha & Hb & Hc & Ha' & Hb' & Hc').
    change (a ++ "@" ++ b ++ "." ++ c) with (a ++ String "@" (b ++ String "." c)).
    rewrite (splitAt_first a _ Ha').
    rewrite Ha', allEmailChars_app, Hb', (hasInnerDot_intro b c Hb Hc). cbn.
    rewrite Hc'. destruct a; [contradiction | reflexivity].
Qed.

(** ** The stored bundle *)

Section BundleShape.

Variable P : Platform.

(** X16. The bundle a registration stores.  Once a registration is answered
    201, the new row holds a salt of 64 and an iv of 24 hexadecimal digits:
    the texts of the 32 and of the 12 bytes that the random source delivered
    after the 16 of bcrypt and the 16 of the wallet, so that no byte of it is
    used twice; and both decode, as the signing flow decodes them, to those
    bytes. *)
Theorem registered_bundle_shape (w : World) (req : Request RegisterRequest)
    (message : string) (pub : User.public) :
  let o := run P (register req) w in
  result o = Some (mkResponse 201 (Registered message pub)) ->
  exists u salt iv,
    Db.users (db (final o)) = (Db.users (db w) ++ [u])%list
    /\ User.to_public u = pub
    /\ salt = map (entropy w) (seq (entropy_used w + 32) 32)
    /\ iv = map (entropy w) (seq (entropy_used w + 64) 12)
    /\ String.length (User.salt u) = 64%nat /\ String.length (User.iv u) = 24%nat
    /\ JS.fromHex (User.salt u) = Some salt /\ JS.fromHex (User.iv u) = Some iv
    /\ entropy_used (final o) = (entropy_used w + 76)%nat.
Proof.
  intros o H. subst o.
  destruct (register_outcome P w req message pub H) as (b & _ & _ & _ & Hpub & Hfinal).
  rewrite Hfinal. cbn [db Db.users entropy_used].
  exists (registrationRow P w b),
         (entropyBytes (afterEntropy 16 (afterEntropy 16 w)) 32),
         (entropyBytes (afterEntropy 32 (afterEntropy 16 (afterEntropy 16 w))) 12).
  assert (Hs : List.length (entropyBytes (afterEntropy 16 (afterEntropy 16 w)) 32) = 32%nat)
    by (unfold entropyBytes; now rewrite length_map, length_seq).
  assert (Hi : List.length
                 (entropyBytes (afterEntropy 32 (afterEntropy 16 (afterEntropy 16 w))) 12)
               = 12%nat)
    by (unfold entropyBytes; now rewrite length_map, length_seq).
  split; [reflexivity |]. split; [now rewrite Hpub |].
  split.
  { unfold entropyBytes, afterEntropy, readEntropy. cbn [snd entropy entropy_used].
    now replace (entropy_used w + 16 + 16)%nat with (entropy_used w + 32)%nat by lia. }
  split.
  { unfold entropyBytes, afterEntropy, readEntropy. cbn [snd entropy entropy_used].
    now replace (entropy_used w + 16 + 16 + 32)%nat with (entropy_used w + 64)%nat by lia. }
  cbn [registrationRow User.salt User.iv].
  rewrite !toHex_length, Hs, Hi.
  split; [reflexivity |]. split; [reflexivity |].
  split; [apply fromHex_toHex; intros E; rewrite E in Hs; discriminate |].
  split; [apply fromHex_toHex; intros E; rewrite E in Hi; discriminate |].
  lia.
Qed.

(** X30. What registration stores can be unwrapped, expression by expression.
    Where AES-GCM decryption inverts encryption, the row of a registration
    answered 201 holds a bundle whose three columns decode, by the hex decoding
    of lines 106-108 of upload-video-metadata, to the salt, the iv and the
    ciphertext of the registration; the decryption of lines 111-141, under the
    PBKDF2 key of the registered password and the decoded salt, gives the
    bytes of the private key of the wallet the registration created; and
    decoding them as text gives the private key. *)
Theorem registered_bundle_round_trip (w : World) (req : Request RegisterRequest)
    (message : string) (pub : User.public) :
  AES_GCM_correct P ->
  let o := run P (register req) w in
  result o = Some (mkResponse 201 (Registered message pub)) ->
  exists (b : RegisterRequest) (u : User.t) (wallet : Wallet)
         (salt iv ciphertext : list byte),
    json req = Some b
    /\ Db.users (db (final o)) = (Db.users (db w) ++ [u])%list
    /\ map createdWallet (trace o) = [None; None; Some wallet; None; None; None; None; None]
    /\ User.walletAddress u = address wallet
    /\ bundleDecodes u salt iv ciphertext
    /\ unwrapped P (reg_password b) salt iv ciphertext
       = Some (JS.TextEncoder_encode (privateKey wallet))
    /\ JS.TextDecoder_decode (JS.TextEncoder_encode (privateKey wallet))
       = Some (privateKey wallet).
Proof.
  intros Hgcm o H.
  destruct (register_created P w req message pub H)
    as (b & u & wallet & salt & iv & [_ Hj] & _ & Htrace & Husers & _ & _ & _ & _
        & Haddress & Hs & Hi & He & Hls & Hli).
  destruct (registered_bundle_unwraps P b u u wallet salt iv (reg_password b)
              Hgcm Hls Hli Hs Hi He eq_refl eq_refl)
    as (ciphertext & Hdecodes & Hunwrapped).
  exists b, u, wallet, salt, iv, ciphertext.
  repeat split; try assumption; try apply Hdecodes.
  apply TextDecoder_TextEncoder.
Qed.

End BundleShape.

(** ** The browser client against the functions *)

Lemma POST_is_no_preflight : ("POST" =? "OPTIONS")%string = false.
Proof. reflexivity. Qed.

Section ClientFacts.

Variable P : Platform.

(** X17. What login of the AuthProvider leaves behind.  When it returns, the
    function has answered 200 with a token and a user, localStorage and the
    React state hold exactly these, the location is '/', and every later call
    through api.ts carries the token as its bearer, provided the token is not
    the empty text.  When it throws, the store of the server is as it was and
    nothing is written to localStorage: a 401 has emptied it and set the
    location to '/login', any other answer has left both alone. *)
Theorem login_keeps_the_granted_token (data : Client.LoginData) (br : Client.Browser)
    (w : World) :
  let sent :=
    Client.request br (mkLoginRequest (Client.ld_email data) (Client.ld_password data)) in
  let o := run P (login sent) w in
  let '(returned, br', w') := Client.useAuth_login P data br w in
  w' = final o
  /\ if returned
     then exists token pub,
            result o = Some (mkResponse 200 (LoggedIn "Login successful" token pub))
            /\ Client.ls_auth_token br' = Some token
            /\ Client.ls_user br' = Some (Client.UserJson pub)
            /\ Client.as_token (Client.authState br') = Some token
            /\ Client.as_user (Client.authState br') = Some pub
            /\ Client.href br' = "/"
            /\ (token <> EmptyString ->
                forall (B : Type) (d : B), bearer (Client.request br' d) token)
     else exists r,
            result o = Some r /\ db w' = db w
            /\ Client.as_error (Client.authState br')
               = Some (Client.errorMessage (Some r) "Login failed")
            /\ if status r =? 401
               then Client.ls_auth_token br' = None /\ Client.ls_user br' = None
                    /\ Client.href br' = "/login"
               else Client.ls_auth_token br' = Client.ls_auth_token br
                    /\ Client.ls_user br' = Client.ls_user br
                    /\ Client.href br' = Client.href br.
Proof.
  intros sent o. subst o sent.
  unfold Client.useAuth_login, Client.authApi_login, Client.post, Client.request.
  unfold run, login. cbn [method json authorization]. rewrite POST_is_no_preflight.
  cbn.
  destruct (JS.falsy (Client.ld_email data) || JS.falsy (Client.ld_password data)); cbn;
    [split; [reflexivity |]; eexists; repeat split |].
  destruct (Db.selectUserByEmail (Client.ld_email data) (db w)) as [u | e]; cbn;
    [| split; [reflexivity |]; eexists; repeat split].
  destruct (bcrypt_verify P (Client.ld_password data) (User.passwordHash u)); cbn;
    [| split; [reflexivity |]; eexists; repeat split].
  destruct (importKey_HMAC (JS.TextEncoder_encode (env w "JWT_SECRET"))) as [key |]; cbn;
    [| split; [reflexivity |]; eexists; repeat split].
  split; [reflexivity |]. eexists _, _. repeat split.
  intros Hne B d. unfold bearer, Client.request, Client.requestInterceptor. cbn.
  match goal with |- context [JS.falsy ?t] => destruct t eqn:E end;
    [contradiction | reflexivity].
Qed.

End ClientFacts.

(** *** The forms against the checks of the functions *)

Lemma localChar_is_emailChar (c : ascii) :
  Client.isLocalChar c = true -> JS.isEmailChar c = true.
Proof. destruct c as [[] [] [] [] [] [] [] []]; cbn; intros H; congruence. Qed.

Lemma domainChar_is_emailChar (c : ascii) :
  Client.isDomainChar c = true -> JS.isEmailChar c = true.
Proof. destruct c as [[] [] [] [] [] [] [] []]; cbn; intros H; congruence. Qed.

Lemma letter_is_emailChar (c : ascii) :
  Client.isLetter c = true -> JS.isEmailChar c = true.
Proof. destruct c as [[] [] [] [] [] [] [] []]; cbn; intros H; congruence. Qed.

Lemma allChars_weaken (p q : ascii -> bool) (s : string) :
  (forall c, p c = true -> q c = true) -> allChars p s = true -> allChars q s = true.
Proof.
  intros Hpq. induction s as [| c s IH]; cbn; [reflexivity |].
  intros H. apply andb_true_iff in H as [Hc Hs]. now rewrite (Hpq c Hc), (IH Hs).
Qed.

Lemma allEmailChars_allChars (s : string) :
  JS.allEmailChars s = allChars JS.isEmailChar s.
Proof. induction s as [| c s IH]; cbn; [reflexivity | now rewrite IH]. Qed.

Lemma domainRest_spec (s : string) :
  Client.domainRest_test s = true ->
  exists b t, s = b ++ String "." t /\ t <> EmptyString
    /\ JS.allEmailChars b = true /\ JS.allEmailChars t = true.
Proof.
  induction s as [| c s IH]; cbn; [discriminate |].
  intros H. apply orb_true_iff in H as [H | H]; apply andb_true_iff in H as [Hc Hs].
  - apply Ascii.eqb_eq in Hc as ->.
    unfold Client.topLevel_test in Hs. apply andb_true_iff in Hs as [Hlen Hall].
    exists EmptyString, s. repeat split.
    + intros ->. discriminate.
    + rewrite allEmailChars_allChars.
      now apply (allChars_weaken Client.isLetter), Hall; apply letter_is_emailChar.
  - destruct (IH Hs) as (b & t & -> & Ht & Hb & Hall).
    exists (String c b), t. repeat split; [assumption | | assumption].
    cbn. now rewrite (domainChar_is_emailChar c Hc).
Qed.

(** The email rule of the forms lets through only what the email check of
    register accepts. *)
Lemma emailPattern_emailRegex (s : string) :
  Client.emailPattern_test s = true -> JS.emailRegex_test s = true.
Proof.
  unfold Client.emailPattern_test, JS.emailRegex_test.
  destruct (JS.splitAt s) as [[loc dom] |]; [| discriminate].
  intros H. apply andb_true_iff in H as [H Hdom]. apply andb_true_iff in H as [Hne Hloc].
  destruct dom as [| c r]; [discriminate |].
  apply andb_true_iff in Hdom as [Hc Hr].
  destruct (domainRest_spec r Hr) as (b & t & -> & Ht & Hb & Hall).
  rewrite Hne. rewrite allEmailChars_allChars.
  rewrite (allChars_weaken _ _ loc localChar_is_emailChar Hloc).
  change (String c (b ++ String "." t)) with (String c b ++ String "." t).
  rewrite allEmailChars_app, hasInnerDot_intro; [| discriminate | assumption].
  cbn. now rewrite (domainChar_is_emailChar c Hc), Hb, Hall.
Qed.

Section Forms.

Variable P : Platform.

(** X20. The form of RegisterPage is at least as strict as register: what it
    submits when none of its rules fails passes the three input checks of the
    function, so the call of api.ts never meets a 400: it is fulfilled by a
    201, or rejected with a 409 or a 500. *)
Theorem register_form_passes_the_checks (data : Client.RegisterData)
    (br : Client.Browser) (w : World) :
  Client.RegisterPage_errors data = [] ->
  acceptable (mkRegisterRequest (Client.rd_email data) (Client.rd_password data))
  /\ let '(settled, _, _) := Client.authApi_register P data br w in
     match settled with
     | Client.Fulfilled r => status r = 201
     | Client.Rejected (Some r) => status r = 409 \/ status r = 500
     | Client.Rejected None => False
     end.
Proof.
  unfold Client.RegisterPage_errors, Client.RegisterPage_email,
    Client.RegisterPage_password.
  destruct (JS.falsy (Client.rd_email data)) eqn:Hfe; [discriminate |].
  destruct (Client.emailPattern_test (Client.rd_email data)) eqn:Hre; [| discriminate].
  destruct (JS.falsy (Client.rd_password data)) eqn:Hfp; [discriminate |].
  destruct (String.length (Client.rd_password data) <? 8)%nat eqn:Hlen; [discriminate |].
  intros _. apply emailPattern_emailRegex in Hre.
  split; [repeat split; assumption |].
  unfold Client.authApi_register, Client.post, Client.request.
  unfold run, register. cbn [method json authorization].
  rewrite POST_is_no_preflight. cbn. rewrite Hfe, Hfp, Hre, Hlen. cbn.
  destruct (Db.selectUserByEmail (Client.rd_email data) (db w)); cbn; [now left |].
  match goal with |- context [Db.insertUser ?row ?d] =>
    unfold Db.insertUser; destruct (Db.violatesUnique row d) end;
    cbn; [now right | reflexivity].
Qed.

(** X21. The form of LoginPage submits only what login takes as filled in:
    the call of api.ts never meets a 400: it is fulfilled by a 200, or
    rejected with a 401 or a 500. *)
Theorem login_form_passes_the_check (data : Client.LoginData) (br : Client.Browser)
    (w : World) :
  Client.LoginPage_errors data = [] ->
  filled (mkLoginRequest (Client.ld_email data) (Client.ld_password data))
  /\ let '(settled, _, _) := Client.authApi_login P data br w in
     match settled with
     | Client.Fulfilled r => status r = 200
     | Client.Rejected (Some r) => status r = 401 \/ status r = 500
     | Client.Rejected None => False
     end.
Proof.
  unfold Client.LoginPage_errors, Client.LoginPage_email, Client.LoginPage_password.
  destruct (JS.falsy (Client.ld_email data)) eqn:Hfe; [discriminate |].
  destruct (Client.emailPattern_test (Client.ld_email data)); [| discriminate].
  destruct (JS.falsy (Client.ld_password data)) eqn:Hfp; [discriminate |].
  intros _. split; [split; assumption |].
  unfold Client.authApi_login, Client.post, Client.request.
  unfold run, login. cbn [method json authorization].
  rewrite POST_is_no_preflight. cbn. rewrite Hfe, Hfp. cbn.
  destruct (Db.selectUserByEmail (Client.ld_email data) (db w)) as [u |]; cbn;
    [| now left].
  destruct (bcrypt_verify P (Client.ld_password data) (User.passwordHash u)); cbn;
    [| now left].
  destruct (importKey_HMAC (JS.TextEncoder_encode (env w "JWT_SECRET"))) as [key |]; cbn;
    [reflexivity | now right].
Qed.

End Forms.

(** ** Bodies that are missing or incomplete *)

Section EdgeAnswers.

Variable P : Platform.

(** X23. A body that is no JSON is answered 500 'Internal server error' by
    register and by login: the exception of req.json() is caught by the
    handler's own try.  Both read the body first, so nothing has been called
    and the world is as it was. *)
Theorem unparsable_body_is_500 (w : World) :
  (forall req : Request RegisterRequest,
      (method req =? "OPTIONS")%string = false -> json req = None ->
      run P (register req) w
      = mkOutcome (Some (errorResponse 500 "Internal server error")) w [])
  /\ (forall req : Request LoginRequest,
      (method req =? "OPTIONS")%string = false -> json req = None ->
      run P (login req) w
      = mkOutcome (Some (errorResponse 500 "Internal server error")) w []).
Proof.
  split.
  - intros req Hm Hj. unfold run, register. now rewrite Hm, Hj.
  - intros req Hm Hj. unfold run, login. now rewrite Hm, Hj.
Qed.

(** X24. A login with a blank email or password is answered 400 'Email and
    password are required' before any call: no row is looked up and bcrypt is
    not asked. *)
Theorem login_rejects_blank_fields (w : World) (req : Request LoginRequest)
    (b : LoginRequest) :
  posted req b -> ~ filled b ->
  run P (login req) w
  = mkOutcome (Some (errorResponse 400 "Email and password are required")) w [].
Proof.
  intros [Hm Hj] Hbad. unfold run, login. rewrite Hm, Hj. cbn.
  destruct (JS.falsy (login_email b)) eqn:He; cbn; [reflexivity |].
  destruct (JS.falsy (login_password b)) eqn:Hp; cbn; [reflexivity |].
  exfalso. apply Hbad. now split.
Qed.

(** X29. A login function whose JWT_SECRET is not set, or is set to the empty
    text, lets nobody in: a login with the right password is answered 500
    'Internal server error' once the row is found and bcrypt has accepted the
    password, because importing the empty key throws; no token is made and
    nothing is written. *)
Theorem login_without_secret_is_500 (w : World) (req : Request LoginRequest)
    (b : LoginRequest) (u : User.t) :
  posted req b -> filled b ->
  Db.selectUserByEmail (login_email b) (db w) = DbOk u ->
  bcrypt_verify P (login_password b) (User.passwordHash u) = true ->
  env w "JWT_SECRET" = EmptyString ->
  run P (login req) w
  = mkOutcome (Some (errorResponse 500 "Internal server error")) w
      [call (SelectUserByEmail (login_email b)) (DbOk u);
       call (BcryptVerify (login_password b) (User.passwordHash u)) true;
       call (EnvGet "JWT_SECRET") EmptyString].
Proof.
  intros [Hm Hj] [Hfe Hfp] Hsel Hpw Hsecret. unfold run, login. rewrite Hm, Hj. cbn.
  rewrite Hfe, Hfp. cbn. rewrite Hsel. cbn. rewrite Hpw. cbn. rewrite Hsecret.
  reflexivity.
Qed.

(** X26. Registering through the browser never touches the session: whatever
    register answers, localStorage is as it was, since register never answers
    401.  When the call returns, the location is '/login' and the store has
    one more row of "User", with the email of the form; when it throws, the
    location and the store are as they were, and the error of the answer is
    kept in the React state and shown. *)
Theorem registering_keeps_the_session (data : Client.RegisterData) (br : Client.Browser)
    (w : World) :
  let sent :=
    Client.request br (mkRegisterRequest (Client.rd_email data) (Client.rd_password data)) in
  let o := run P (register sent) w in
  let '(returned, br', w') := Client.useAuth_register P data br w in
  w' = final o
  /\ Client.ls_auth_token br' = Client.ls_auth_token br
  /\ Client.ls_user br' = Client.ls_user br
  /\ if returned
     then Client.href br' = "/login"
          /\ exists u, Db.users (db w') = (Db.users (db w) ++ [u])%list
                       /\ User.email u = Client.rd_email data
     else Client.href br' = Client.href br /\ db w' = db w
          /\ exists r, result o = Some r
               /\ Client.as_error (Client.authState br')
                  = Some (Client.errorMessage (Some r) "Registration failed")
               /\ Client.toasts br'
                  = (Client.toasts br
                     ++ [Client.error (Client.errorMessage (Some r) "Registration failed")])%list.
Proof.
  intros sent o. subst o sent.
  unfold Client.useAuth_register, Client.authApi_register, Client.post, Client.request.
  unfold run, register. cbn [method json authorization]. rewrite POST_is_no_preflight.
  cbn.
  destruct (JS.falsy (Client.rd_email data) || JS.falsy (Client.rd_password data)); cbn;
    [repeat split; eexists; repeat split |].
  destruct (negb (JS.emailRegex_test (Client.rd_email data))); cbn;
    [repeat split; eexists; repeat split |].
  destruct (String.length (Client.rd_password data) <? 8)%nat; cbn;
    [repeat split; eexists; repeat split |].
  destruct (Db.selectUserByEmail (Client.rd_email data) (db w)); cbn;
    [repeat split; eexists; repeat split |].
  match goal with |- context [Db.insertUser ?row ?d] =>
    unfold Db.insertUser; destruct (Db.violatesUnique row d) end;
    cbn; [repeat split; eexists; repeat split |].
  repeat split. eexists. split; reflexivity.
Qed.

End EdgeAnswers.

(** ** Registrations served together *)

Section OneEmailOnce.

Variable P : Platform.

Lemma handle_keeps_emails {X} (e : Event X) (w : World) (email : string) :
  In email (emails w) -> In email (emails (snd (handle P e w))).
Proof.
  unfold emails. intros H. destruct e; cbn; try assumption.
  - unfold Db.insertUser. destruct (Db.violatesUnique row (db w)); cbn; [assumption |].
    rewrite map_app. apply in_or_app. now left.
  - unfold Db.insertVideo.
    destruct (negb (existsb (fun u => (User.id u =? Video.i_ownerId row)%N)
                      (Db.users (db w)))); cbn; assumption.
  - unfold Db.updateUpdatedAt. cbn.
    destruct (updateUpdatedAt_columns id updatedAt (Db.users (db w))) as (_ & H2 & _).
    cbn in H2. now rewrite H2.
Qed.

Lemma handle_inserts {X} (e : Event X) (w : World) (email : string) :
  insertsEmail e = Some email ->
  insertedUser e (fst (handle P e w)) = true ->
  ~ In email (emails w) /\ In email (emails (snd (handle P e w))).
Proof.
  unfold emails. destruct e; cbn; try discriminate.
  intros H. injection H as <-.
  unfold Db.insertUser. destruct (Db.violatesUnique row (db w)) eqn:Hv; cbn;
    [discriminate |].
  intros _. destruct (violatesUnique_false row (db w) Hv) as (He & _).
  split; [exact He |]. rewrite map_app. apply in_or_app. right. now left.
Qed.

Lemma step_awaits (email : string) (p : Prog Response) (w : World) :
  awaits email p ->
  let p' := fst (step P p w) in
  let w' := snd (step P p w) in
  (In email (emails w) -> In email (emails w'))
  /\ (awaits email p'
      \/ (isTerminal p' /\ ~ In email (emails w) /\ In email (emails w'))).
Proof.
  destruct p as [r | | X e k]; cbn.
  - intros H. split; [auto | now left].
  - intros _. split; [auto | now left].
  - intros [Hemail Hnext].
    pose proof (handle_keeps_emails e w email) as Hkeep.
    pose proof (handle_inserts e w) as Hins.
    specialize (Hnext (fst (handle P e w))).
    destruct (handle P e w) as [x w']. cbn in *.
    split; [exact Hkeep |].
    destruct (insertedUser e x) eqn:Hx; [| now left].
    right. split; [exact Hnext |].
    destruct (insertsEmail e) as [inserted |] eqn:He.
    + rewrite (Hemail inserted eq_refl) in Hins. now apply Hins.
    + destruct e; discriminate.
Qed.

Lemma terminal_step (p : Prog Response) (w : World) :
  isTerminal p -> step P p w = (p, w).
Proof. destruct p; [reflexivity | reflexivity | contradiction]. Qed.

Lemma run_awaits (email : string) (p : Prog Response) :
  awaits email p ->
  forall w seen,
    let o := run_from P p w seen in
    (In email (emails w) ->
       option_map status (result o) <> Some 201 /\ In email (emails (final o)))
    /\ (option_map status (result o) = Some 201 -> In email (emails (final o))).
Proof.
  induction p as [r | | X e k IH]; cbn.
  - intros H w seen. split.
    + intros Hin. split; [congruence | exact Hin].
    + intros H'. congruence.
  - intros _ w seen. split.
    + intros Hin. split; [discriminate | exact Hin].
    + discriminate.
  - intros [Hemail Hnext] w seen.
    pose proof (handle_keeps_emails e w email) as Hkeep.
    pose proof (handle_inserts e w) as Hins.
    specialize (Hnext (fst (handle P e w))).
    destruct (handle P e w) as [x w']. cbn in *.
    destruct (insertedUser e x) eqn:Hx.
    + (* the insert went through: the store had no such row, and has one now *)
      assert (Hnew : ~ In email (emails w) /\ In email (emails w')).
      { destruct (insertsEmail e) as [inserted |] eqn:He.
        - rewrite (Hemail inserted eq_refl) in Hins. now apply Hins.
        - destruct e; discriminate. }
      destruct Hnew as [Hnot Hin].
      split; [intros H; contradiction |].
      intros _. destruct (k x); cbn in *; [assumption | assumption | contradiction].
    + destruct (IH x Hnext w' (call e x :: seen)) as [Htaken Hdone].
      split; [intros Hin; apply Htaken, Hkeep, Hin | exact Hdone].
Qed.

Lemma register_awaits (req : Request RegisterRequest) (b : RegisterRequest) :
  posted req b -> awaits (reg_email b) (register req).
Proof.
  intros [Hm Hj]. unfold register. rewrite Hm, Hj. cbn.
  destruct (JS.falsy (reg_email b) || JS.falsy (reg_password b)); cbn; [discriminate |].
  destruct (negb (JS.emailRegex_test (reg_email b))); cbn; [discriminate |].
  destruct (String.length (reg_password b) <? 8)%nat; cbn; [discriminate |].
  split; [discriminate |]. intros [u | e]; cbn; [discriminate |].
  split; [discriminate |]. intros passwordHash. cbn.
  split; [discriminate |]. intros wallet. cbn.
  split; [discriminate |]. intros salt. cbn.
  split; [discriminate |]. intros iv. cbn.
  split; [discriminate |]. intros key. cbn.
  split; [discriminate |]. intros encrypted. cbn.
  split; [intros inserted H; now injection H as <- |].
  intros [u | e']; cbn; [exact I | discriminate].
Qed.

(** X27. One email registers once, whatever the timing: of two registrations
    of the same email served concurrently, in any interleaving of their
    calls and on any store, at most one is answered 201. *)
Theorem one_email_registers_once (sched : list bool) (w : World)
    (req1 req2 : Request RegisterRequest) (b1 b2 : RegisterRequest) :
  posted req1 b1 -> posted req2 b2 -> reg_email b1 = reg_email b2 ->
  let '(first, second, _) := interleave P sched (register req1) (register req2) w in
  ~ (option_map status first = Some 201 /\ option_map status second = Some 201).
Proof.
  intros H1 H2 Heq.
  pose proof (register_awaits req1 b1 H1) as Hp.
  pose proof (register_awaits req2 b2 H2) as Hq. rewrite <- Heq in Hq.
  set (email := reg_email b1) in *.
  assert (Hinv : (awaits email (register req1) /\ awaits email (register req2))
                 \/ (isTerminal (register req1) /\ awaits email (register req2)
                     /\ In email (emails w))
                 \/ (awaits email (register req1) /\ isTerminal (register req2)
                     /\ In email (emails w))) by (left; now split).
  clear Hp Hq H1 H2 Heq.
  generalize dependent (register req2). generalize dependent (register req1).
  revert w. induction sched as [| [] s IH]; intros w p q Hinv.
  - (* the schedule is used up: the first runs to its end, then the second *)
    unfold interleave, run.
    destruct Hinv as [[Hp Hq] | [(Hp & Hq & Hin) | (Hp & Hq & Hin)]].
    + destruct (run_awaits email p Hp w []) as [_ Hdone].
      destruct (run_awaits email q Hq (final (run_from P p w [])) []) as [Htaken _].
      intros [Hfirst Hsecond]. now apply Htaken; [apply Hdone |].
    + assert (Hfinal : final (run_from P p w []) = w)
        by (destruct p; [reflexivity | reflexivity | contradiction]).
      rewrite Hfinal.
      destruct (run_awaits email q Hq w []) as [Htaken _].
      intros [_ Hsecond]. now apply Htaken.
    + destruct (run_awaits email p Hp w []) as [Htaken _].
      intros [Hfirst _]. now apply Htaken.
  - (* the first makes a call *)
    cbn [interleave].
    destruct Hinv as [[Hp Hq] | [(Hp & Hq & Hin) | (Hp & Hq & Hin)]].
    + pose proof (step_awaits email p w Hp) as [Hkeep Hstep].
      destruct (step P p w) as [p' w']. cbn in *. apply IH.
      destruct Hstep as [Hp' | (Hterm & _ & Hin')]; [left; now split |].
      right. left. repeat split; assumption.
    + rewrite (terminal_step p w Hp). apply IH. right. left. repeat split; assumption.
    + pose proof (step_awaits email p w Hp) as [Hkeep Hstep].
      destruct (step P p w) as [p' w']. cbn in *. apply IH.
      destruct Hstep as [Hp' | (_ & Hnot & _)]; [| contradiction].
      right. right. repeat split; auto.
  - (* the second makes a call *)
    cbn [interleave].
    destruct Hinv as [[Hp Hq] | [(Hp & Hq & Hin) | (Hp & Hq & Hin)]].
    + pose proof (step_awaits email q w Hq) as [Hkeep Hstep].
      destruct (step P q w) as [q' w']. cbn in *. apply IH.
      destruct Hstep as [Hq' | (Hterm & _ & Hin')]; [left; now split |].
      right. right. repeat split; assumption.
    + pose proof (step_awaits email q w Hq) as [Hkeep Hstep].
      destruct (step P q w) as [q' w']. cbn in *. apply IH.
      destruct Hstep as [Hq' | (_ & Hnot & _)]; [| contradiction].
      right. left. repeat split; auto.
    + rewrite (terminal_step q w Hq). apply IH. right. right. repeat split; assumption.
Qed.

End OneEmailOnce.

(** ** The small platform keeps the contract of bcrypt *)

Lemma Toy_bcrypt_ok : bcrypt_correct Toy.platform.
Proof. intros password salt. cbn. unfold Toy.verify, Toy.hash. apply String.eqb_refl. Qed.

(** ** The further properties at work on the scenario *)

(** A preflight to register, and one to login. *)
Lemma preflight_is_answered_first_witness :
  run Toy.platform (register (mkRequest "OPTIONS" None None)) w0
  = mkOutcome (Some (mkResponse 200 (Text "ok"))) w0 []
  /\ run Toy.platform (login (mkRequest "OPTIONS" None None)) w0
     = mkOutcome (Some (mkResponse 200 (Text "ok"))) w0 [].
Proof.
  split.
  - exact (preflight_is_answered_first Toy.platform
             (ToRegister (mkRequest "OPTIONS" None None)) w0 eq_refl).
  - exact (preflight_is_answered_first Toy.platform
             (ToLogin (mkRequest "OPTIONS" None None)) w0 eq_refl).
Defined.

(** An email without a dot after the at sign. *)
Lemma register_rejects_bad_input_witness :
  run Toy.platform (register (post None (mkRegisterRequest "a@x" "Abcd1234"))) w0
  = mkOutcome (Some (errorResponse 400 "Invalid email format")) w0 [].
Proof.
  apply (register_rejects_bad_input Toy.platform w0
           (post None (mkRegisterRequest "a@x" "Abcd1234"))
           (mkRegisterRequest "a@x" "Abcd1234")).
  - apply here.
  - intros (_ & _ & H & _). vm_compute in H. discriminate H.
Defined.

(** The registration of the scenario adds the row of its account. *)
Lemma register_adds_one_row_or_nothing_witness :
  exists u,
    db (final registered) = Db.mk [u] [] 2%N (Db.now (db w0))
    /\ User.id u = 1%N /\ User.username u = User.walletAddress u.
Proof.
  destruct (proj2 (register_adds_one_row_or_nothing Toy.platform w0
                     (post None registration)
                     (mkResponse 201
                        (Registered "User registered successfully" (User.to_public stored)))
                     ltac:(vm_compute; reflexivity)) eq_refl)
    as (u & _ & Hdb & Hid & Hname & _).
  exists u. split; [exact Hdb |]. split; [exact Hid | exact Hname].
Defined.

(** The login of the scenario. *)
Lemma login_grants_token_on_bcrypt_only_witness :
  exists u,
    filter (fun u => String.eqb (User.email u) "a@x.com") (Db.users (db w1)) = [u]
    /\ Toy.verify "Abcd1234" (User.passwordHash u) = true.
Proof.
  destruct (proj1 (login_grants_token_on_bcrypt_only Toy.platform w1 (post None credentials)
                     (mkResponse 200
                        (LoggedIn "Login successful" token (User.to_public account)))
                     ltac:(vm_compute; reflexivity))
              "Login successful" token (User.to_public account) eq_refl)
    as (b & u & p & k & [_ Hj] & Hrow & Hpw & _).
  injection Hj as <-. exists u. split; [exact Hrow | exact Hpw].
Defined.

(** The message of the clip of the scenario, read back. *)
Lemma signed_message_is_unambiguous_witness :
  let message := uploadMessage "https://cdn/v1.mp4" "My Clip" (JS.toISOString 1704067200004) in
  message = "Video Upload: https://cdn/v1.mp4" ++ LF ++ "Title: My Clip" ++ LF
            ++ "Timestamp: 2024-01-01T00:00:00.004Z"
  /\ ("https://cdn/v1.mp4" = "https://cdn/v1.mp4" /\ "My Clip" = "My Clip"
      /\ "2024-01-01T00:00:00.004Z" = JS.toISOString 1704067200004).
Proof.
  split; [reflexivity |].
  apply (signed_message_is_unambiguous "https://cdn/v1.mp4" "My Clip" 1704067200004
           "https://cdn/v1.mp4" "My Clip" "2024-01-01T00:00:00.004Z");
    reflexivity.
Defined.

(** The email of the scenario, registered a second time under another
    password. *)
Lemma registered_email_is_taken_witness :
  result (run Toy.platform (register (post None (mkRegisterRequest "a@x.com" "Efgh5678"))) w1)
  = Some (errorResponse 409 "User already exists with this email").
Proof.
  apply (proj1 (registered_email_is_taken Toy.platform w0 (post None registration)
                  (post None (mkRegisterRequest "a@x.com" "Efgh5678"))
                  registration (mkRegisterRequest "a@x.com" "Efgh5678")
                  "User registered successfully" (User.to_public stored)
                  eq_refl ltac:(vm_compute; reflexivity)
                  (here None _) ltac:(repeat split) eq_refl)).
Defined.

(** The token of the scenario: its two clock readings are a millisecond apart,
    within the same second. *)
Lemma token_lives_seven_days_witness :
  Jwt.iat payload + 7 * 24 * 60 * 60 <= Jwt.exp payload.
Proof.
  apply (proj1 (token_lives_seven_days Toy.platform w1 (post None credentials)
                  (call (JwtCreate (Jwt.mkHeader "HS256" "JWT") payload
                           (JS.TextEncoder_encode (secrets "JWT_SECRET"))) token)
                  (Jwt.mkHeader "HS256" "JWT") payload
                  (JS.TextEncoder_encode (secrets "JWT_SECRET")) token
                  ltac:(vm_compute; do 5 right; left; reflexivity) eq_refl)).
  vm_compute. discriminate.
Defined.

(** The registration and the login of the scenario, one after the other. *)
Lemma register_then_login_witness :
  exists payload',
    result loggedIn
    = Some (mkResponse 200
        (LoggedIn "Login successful"
           (Toy.create (Jwt.mkHeader "HS256" "JWT") payload'
              (JS.TextEncoder_encode (secrets "JWT_SECRET")))
           (User.to_public stored)))
    /\ Jwt.sub payload' = 1%N /\ Jwt.email payload' = "a@x.com".
Proof.
  destruct (register_then_login Toy.platform w0 (post None registration) registration
              "User registered successfully" (User.to_public stored)
              (post None credentials) credentials
              Toy_bcrypt_ok eq_refl eq_refl ltac:(vm_compute; reflexivity)
              (here None credentials) eq_refl eq_refl)
    as (payload' & Hresult & Hsub & Hemail & _).
  exists payload'. split; [exact Hresult |]. split; [exact Hsub | exact Hemail].
Defined.

(** The login of the scenario at a function without JWT_SECRET. *)
Lemma login_without_secret_is_500_witness :
  result (run Toy.platform (login (post None credentials)) w1unset)
  = Some (errorResponse 500 "Internal server error").
Proof.
  rewrite (login_without_secret_is_500 Toy.platform w1unset (post None credentials)
             credentials stored (here None credentials) ltac:(split; reflexivity)
             ltac:(vm_compute; reflexivity) ltac:(vm_compute; reflexivity) eq_refl).
  reflexivity.
Defined.

(** The bundle of the account of the scenario, unwrapped. *)
Lemma registered_bundle_round_trip_witness :
  exists u wallet' salt' iv' ciphertext',
    Db.users (db w1) = [u]
    /\ User.walletAddress u = address wallet'
    /\ bundleDecodes u salt' iv' ciphertext'
    /\ unwrapped Toy.platform "Abcd1234" salt' iv' ciphertext'
       = Some (JS.TextEncoder_encode (privateKey wallet')).
Proof.
  destruct (registered_bundle_round_trip Toy.platform w0 (post None registration)
              "User registered successfully" (User.to_public stored)
              ToyFacts.AES_GCM_ok ltac:(vm_compute; reflexivity))
    as (b & u & wallet' & salt' & iv' & ciphertext' & Hj & Husers & _ & Haddress
        & Hdecodes & Hunwrapped & _).
  injection Hj as <-.
  exists u, wallet', salt', iv', ciphertext'.
  split; [exact Husers |]. split; [exact Haddress |]. split; [exact Hdecodes | exact Hunwrapped].
Defined.

(** A column that is no hexadecimal text. *)
Lemma fromHex_takes_any_text_witness :
  exists bs, JS.fromHex "zz-10x" = Some bs /\ List.length bs = 3%nat.
Proof.
  exact (proj2 (fromHex_takes_any_text "zz-10x") ltac:(discriminate) eq_refl).
Defined.

(** The email of the scenario. *)
Lemma emailRegex_accepts_witness : JS.emailRegex_test "a@x.com" = true.
Proof.
  apply (proj2 (emailRegex_accepts "a@x.com")).
  exists "a", "x", "com". repeat split; discriminate.
Defined.

(** The bundle of the account of the scenario. *)
Lemma registered_bundle_shape_witness :
  exists u,
    Db.users (db w1) = [u]
    /\ String.length (User.salt u) = 64%nat /\ String.length (User.iv u) = 24%nat.
Proof.
  destruct (registered_bundle_shape Toy.platform w0 (post None registration)
              "User registered successfully" (User.to_public stored)
              ltac:(vm_compute; reflexivity))
    as (u & s & i & Husers & _ & _ & _ & Hs & Hi & _).
  exists u. split; [exact Husers |]. split; [exact Hs | exact Hi].
Defined.

(** A registration whose body is no JSON. *)
Lemma unparsable_body_is_500_witness :
  run Toy.platform (register (mkRequest "POST" None None)) w0
  = mkOutcome (Some (errorResponse 500 "Internal server error")) w0 [].
Proof.
  exact (proj1 (unparsable_body_is_500 Toy.platform w0)
           (mkRequest "POST" None None) eq_refl eq_refl).
Defined.

(** A login without a password. *)
Lemma login_rejects_blank_fields_witness :
  run Toy.platform (login (post None (mkLoginRequest "a@x.com" EmptyString))) w1
  = mkOutcome (Some (errorResponse 400 "Email and password are required")) w1 [].
Proof.
  apply (login_rejects_blank_fields Toy.platform w1
           (post None (mkLoginRequest "a@x.com" EmptyString)) (mkLoginRequest "a@x.com" EmptyString)).
  - apply here.
  - intros [_ H]. discriminate H.
Defined.

(** ** The browser client on the scenario *)

(** Signing in stores the token and the user of the answer. *)
Example visit_signedIn :
  Visit.signedIn
  = Client.mkBrowser (Some token) (Some (Client.UserJson (User.to_public account))) "/"
      (Client.mkAuthState (Some (User.to_public account)) (Some token) false None)
      [Client.success "Login successful!"].
Proof. vm_compute. reflexivity. Qed.

(** The form rules on examples. *)
Example form_rules_ex :
  Client.RegisterPage_errors Visit.form = []
  /\ Client.UploadPage_errors (Client.mkUploadVideoData "My" "Abcd1234")
     = ["Title must be at least 3 characters long"]
  /\ Client.RegisterPage_errors (Client.mkRegisterData "a@x" "abcd1234" "abcd")
     = ["Invalid email address";
        "Password must contain at least one uppercase letter, one lowercase letter, and one number";
        "Passwords do not match"]
  /\ Client.emailPattern_test "first.last+tag@mail.example.org" = true
  /\ Client.emailPattern_test "a@x.c" = false
  /\ JS.emailRegex_test "a@x.c" = true.
Proof. repeat split; reflexivity. Qed.

(** The login of the visit. *)
Lemma login_keeps_the_granted_token_witness :
  Client.ls_auth_token Visit.signedIn = Some token
  /\ forall (B : Type) (d : B), bearer (Client.request Visit.signedIn d) token.
Proof.
  pose proof (login_keeps_the_granted_token Toy.platform Visit.credentials Visit.fresh w1)
    as H.
  cbv zeta in H. unfold Visit.signedIn.
  destruct (Client.useAuth_login Toy.platform Visit.credentials Visit.fresh w1)
    as [[returned br'] w'] eqn:E.
  assert (Hreturned : returned = true).
  { apply (f_equal (fun x => fst (fst x))) in E. vm_compute in E. now symmetry. }
  rewrite Hreturned in H. destruct H as (_ & t & p & Hres & Hstored & _ & _ & _ & _ & Hsent).
  assert (Ht : t = token).
  { vm_compute in Hres. injection Hres as <- _. vm_compute. reflexivity. }
  cbn [fst snd]. rewrite <- Ht. split; [exact Hstored |].
  apply Hsent. rewrite Ht. discriminate.
Defined.

(** The form of the visit. *)
Lemma register_form_passes_the_checks_witness :
  acceptable (mkRegisterRequest "a@x.com" "Abcd1234").
Proof.
  exact (proj1 (register_form_passes_the_checks Toy.platform Visit.form Visit.fresh w0
                  eq_refl)).
Defined.

Lemma login_form_passes_the_check_witness :
  filled (mkLoginRequest "a@x.com" "Abcd1234").
Proof.
  exact (proj1 (login_form_passes_the_check Toy.platform Visit.credentials Visit.fresh w1
                  eq_refl)).
Defined.

(** Two registrations of the email of the scenario, each looking the email up
    before either inserts. *)
Lemma one_email_registers_once_witness :
  posted (post None registration) registration
  /\ let '(first, second, _) :=
       interleave Toy.platform [true; false]
         (register (post None registration)) (register (post None registration)) w0 in
     ~ (option_map status first = Some 201 /\ option_map status second = Some 201).
Proof.
  split; [apply here |].
  exact (one_email_registers_once Toy.platform [true; false] w0
           (post None registration) (post None registration) registration registration
           (here None registration) (here None registration) eq_refl).
Defined.
